(** * django-conditions: the field layer and the conditions engine it binds

    A shallow embedding of [conditions/fields.py] and [conditions/widgets.py].
    Python values are a small tagged union, exceptions are an error monad,
    and calls to collaborators whose order matters are recorded in a trace.
    The engine those modules import ([conditions/lists.py],
    [conditions/conditions.py]) is modelled from the specification; the
    inherited form and field methods and the Python and Django library
    functions are parameters. *)

From Stdlib Require Import String Ascii List ZArith Bool Lia.
From Stdlib Require Import Sorting.Sorted Sorting.Permutation.
From Stdlib Require Import DecimalString.
Import ListNotations.
Local Open Scope string_scope.
Local Open Scope list_scope.
Set Warnings "-register-all,-notation-for-abbreviation".

(* ================================================================== *)
(** * Part I: the model *)
(* ================================================================== *)

(** ** Python values *)

(** What [json.loads] produces: [None], [bool], [int], [str], [list] and
    [dict] (string keys, in insertion order).  Numbers are integers here;
    no function of the field layer looks inside a number. *)
Inductive json : Type :=
| JNull
| JBool (b : bool)
| JNum (n : Z)
| JStr (s : string)
| JArr (items : list json)
| JObj (fields : list (string * json)).

Inductive boolop : Type := AND | OR.

(** Modelled from the spec: the [CondList] class of [conditions/lists.py].
    Section 3 describes the tree it owns: a leaf names a condition, with an
    optional key, operator and operand; a group combines children with
    AND or OR. *)
Inductive TreeNode : Type :=
| Leaf (condstr : string) (key : option string)
       (operator : option string) (operand : option json)
| Group (op : boolop) (children : list TreeNode).

Record CondList : Type := mkCondList { root : TreeNode }.

(** The values the field layer receives: JSON-shaped data, a tuple, or a
    [CondList] instance. *)
Inductive pyval : Type :=
| VJson (j : json)
| VTuple (items : list json)
| VCondList (c : CondList).

Notation VNone := (VJson JNull).
Notation VStr s := (VJson (JStr s)).

Definition is_None (v : pyval) : bool :=
  match v with VJson JNull => true | _ => false end.

Definition is_list_or_tuple (v : pyval) : bool :=
  match v with VJson (JArr _) => true | VTuple _ => true | _ => false end.

Definition is_dict (v : pyval) : bool :=
  match v with VJson (JObj _) => true | _ => false end.

Definition is_str (v : pyval) : bool :=
  match v with VJson (JStr _) => true | _ => false end.

Definition is_CondList (v : pyval) : bool :=
  match v with VCondList _ => true | _ => false end.

(** [type(value).__name__] *)
Definition type_name (v : pyval) : string :=
  match v with
  | VJson JNull => "NoneType"
  | VJson (JBool _) => "bool"
  | VJson (JNum _) => "int"
  | VJson (JStr _) => "str"
  | VJson (JArr _) => "list"
  | VJson (JObj _) => "dict"
  | VTuple _ => "tuple"
  | VCondList _ => "CondList"
  end.

(** ** Exceptions *)

Inductive exn : Type :=
| TypeError (msg : string)
| ValueError (msg : string)
| AttributeError (msg : string)
| ValidationError (msg : string)
| InvalidConditionError (msg : string)
| MalformedInput (msg : string).

Inductive result (A : Type) : Type :=
| Ok (a : A)
| Raise (e : exn).
Arguments Ok {A} a.
Arguments Raise {A} e.

Definition rbind {A B : Type} (m : result A) (k : A -> result B) : result B :=
  match m with
  | Ok a => k a
  | Raise e => Raise e
  end.

Declare Scope result_scope.
Delimit Scope result_scope with result.
Notation "x <- m ;; k" := (rbind m (fun x => k))
  (at level 61, m at next level, right associativity) : result_scope.
Notation "m ;; k" := (rbind m (fun _ => k))
  (at level 61, right associativity) : result_scope.

Definition is_ValidationError {A : Type} (r : result A) : bool :=
  match r with Raise (ValidationError _) => true | _ => false end.

(** ** String helpers *)

(** [x in [a, b, ...]] on strings. *)
Definition str_in (x : string) (l : list string) : bool :=
  existsb (String.eqb x) l.

(** [s[1:-1]] *)
Definition slice_1_m1 (s : string) : string :=
  substring 1 (String.length s - 2) s.

(** [s.replace(old, new)] for a non-empty [old]: scan left to right,
    [skip] counts the characters of a match still to be dropped. *)
Fixpoint replace_from (old new : string) (skip : nat) (s : string) : string :=
  match s with
  | EmptyString => EmptyString
  | String c s' =>
      match skip with
      | S k => replace_from old new k s'
      | O =>
          if prefix old s
          then new ++ replace_from old new (String.length old - 1) s'
          else String c (replace_from old new 0 s')
      end
  end.

Definition str_replace (old new s : string) : string :=
  replace_from old new 0 s.

(** ** Library functions the module imports *)

(** The keyword arguments of a [json.dumps] call.  [TextJSONField]
    collects [indent], and [cls] when an encoder class is set;
    [JSONWidget] passes [ensure_ascii], [indent] and [default]. *)
Record DumpsKwargs : Type := mkDumpsKwargs {
  indent : option Z;
  cls : option string;
  ensure_ascii : bool;
  default : option string
}.

(** [json.dumps] and [repr] belong to the Python library; the model is
    generic in them.  [json.dumps] raises on a value it cannot serialise. *)
Class PyLib : Type := {
  json_dumps : DumpsKwargs -> pyval -> result string;
  py_repr : string -> string
}.

(** ** TextJSONField *)

Record TextJSONField : Type := mkTextJSONField {
  null : bool;
  blank : bool;
  encoder_kwargs : DumpsKwargs
}.

Section TextJSONField_methods.
Context `{PyLib}.
Local Open Scope result_scope.

Definition get_prep_value (self : TextJSONField) (value : pyval)
  : result pyval :=
  if is_None value then
    if negb (null self) && blank self then Ok (VStr "")
    else Ok VNone
  else
    s <- json_dumps (encoder_kwargs self) value ;;
    Ok (VStr s).

(** [TextJSONField.get_db_prep_value] *)
Definition text_get_db_prep_value (self : TextJSONField) (value : pyval)
  : result pyval :=
  get_prep_value self value.

(** [x[1:-1]] on what [get_prep_value] returned. *)
Definition subscript_1_m1 (v : pyval) : result string :=
  match v with
  | VJson (JStr s) => Ok (slice_1_m1 s)
  | _ => Raise (TypeError ("'" ++ type_name v ++ "' object is not subscriptable"))
  end.

Definition get_prep_lookup (self : TextJSONField) (lookup_type : string)
           (value : pyval) : result pyval :=
  if str_in lookup_type ["exact"; "iexact"; "in"; "isnull"] then
    Ok value
  else if str_in lookup_type ["contains"; "icontains"] then
    if is_list_or_tuple value then
      @Raise unit
        (TypeError ("Lookup type " ++ py_repr lookup_type
                    ++ " not supported with argument of "
                    ++ type_name value)) ;;
      (* the statement after the raise *)
      p <- get_prep_value self value ;;
      s <- subscript_1_m1 p ;;
      Ok (VStr (str_replace ", " "%" s))
    else if is_dict value then
      p <- get_prep_value self value ;;
      s <- subscript_1_m1 p ;;
      Ok (VStr s)
    else
      get_prep_value self value
  else
    Raise (TypeError ("Lookup type " ++ py_repr lookup_type
                      ++ " not supported")).

End TextJSONField_methods.

(** ** Condition kinds and the registry *)

(** Modelled from the spec: the condition classes of
    [conditions/conditions.py].  Section 3 gives a condition kind
    its attributes; a compare kind adds an ordered operator table (token to
    comparison of operand and value) and an operand example.  The predicate
    of a kind reads the runtime context, here a JSON-shaped value. *)
Record CompareInfo : Type := mkCompareInfo {
  operators : list (string * (json -> json -> bool));
  operand_example : string;
  value_of : json -> option string -> json
}.

Record ConditionKind : Type := mkConditionKind {
  key_required : bool;
  keys_allowed : list string;
  key_example : string;
  help_text : string;
  full_description : string;
  check : json -> option string -> bool;
  compare_info : option CompareInfo
}.

(** [issubclass(condition, CompareCondition)] *)
Definition is_compare (condition : ConditionKind) : bool :=
  match compare_info condition with Some _ => true | None => false end.

(** A Python [dict] with string keys, in insertion order. *)
Definition dict (A : Type) : Type := list (string * A).

Fixpoint dict_get {A : Type} (k : string) (d : dict A) : option A :=
  match d with
  | [] => None
  | (k', v) :: rest => if String.eqb k k' then Some v else dict_get k rest
  end.

(** [condition_definitions]: group name to condstr to condition kind. *)
Definition Definitions : Type := dict (dict ConditionKind).

(** ** Calls recorded in order *)

Section Traced.
Context {E : Type}.

(** A computation that raises or returns, with the calls it made. *)
Definition traced (A : Type) : Type := (result A * list E)%type.

Definition tret {A : Type} (a : A) : traced A := (Ok a, []).

Definition traise {A : Type} (e : exn) : traced A := (Raise e, []).

Definition tbind {A B : Type} (m : traced A) (k : A -> traced B)
  : traced B :=
  match m with
  | (Ok a, t) => let (r, t') := k a in (r, t ++ t')
  | (Raise e, t) => (Raise e, t)
  end.

(** One call to a collaborator: the event, and what the call gave. *)
Definition call {A : Type} (ev : E) (r : result A) : traced A := (r, [ev]).

(** [try: body / except: handler / else: orelse].  A handler answers
    [None] for an exception its [except] clause does not match. *)
Definition try_except_else {A B : Type} (body : traced A)
           (handler : exn -> option (traced B)) (orelse : A -> traced B)
  : traced B :=
  match body with
  | (Ok a, t) => let (r, t') := orelse a in (r, t ++ t')
  | (Raise e, t) =>
      match handler e with
      | Some h => let (r, t') := h in (r, t ++ t')
      | None => (Raise e, t)
      end
  end.
End Traced.
Arguments traced E A : clear implicits.

Declare Scope traced_scope.
Delimit Scope traced_scope with traced.
Notation "x <- m ;; k" := (tbind m (fun x => k))
  (at level 61, m at next level, right associativity) : traced_scope.

(** The calls of the field layer whose order the properties speak of. *)
Inductive event : Type :=
| EvSuper (method : string) (arg : pyval)
| EvDecode (json : pyval)
| EvEncode (c : CondList).

Definition is_EvDecode (ev : event) : bool :=
  match ev with EvDecode _ => true | _ => false end.

(** [CondList.decode] and [CondList.encode] live in [conditions/lists.py];
    the field layer is generic in them. *)
Class Engine : Type := {
  decode : pyval -> Definitions -> result CondList;
  encode : CondList -> json
}.

(** ** The reference context handed to the template *)

Module Entry.
(** The [dict] built per condition in [ConditionsWidget.render]. *)
Record t : Type := mk {
  condstr : string;
  key_required : string;
  keys_allowed : list string;
  key_example : string;
  operator_required : string;
  operators : list string;
  operand_example : string;
  help_text : string;
  description : string
}.
End Entry.

Module GroupEntry.
(** The [dict] built per group in [ConditionsWidget.render]. *)
Record t : Type := mk {
  groupname : string;
  conditions : list Entry.t
}.
End GroupEntry.

Record TemplateContext : Type := mkTemplateContext {
  textarea : string;
  condition_groups : list GroupEntry.t
}.

(** What the module uses of Django: [Textarea.render], and
    [render_to_string] on the reference context. *)
Class Django : Type := {
  textarea_render : string -> pyval -> dict json -> result string;
  render_to_string : string -> TemplateContext -> result string
}.

(** ** sorted(iterable, key=...) *)

(** Python's [sorted] is stable and compares [str] keys by code point;
    on UTF-8 bytes that is the bytewise lexicographic order. *)
Section PySorted.
Context {A : Type} (key : A -> string).

Fixpoint insert_by (x : A) (l : list A) : list A :=
  match l with
  | [] => [x]
  | y :: rest =>
      if String.leb (key x) (key y) then x :: l
      else y :: insert_by x rest
  end.

Definition py_sorted (l : list A) : list A := fold_right insert_by [] l.
End PySorted.



(** ** JSONWidget (widgets.py) *)

Definition widget_dumps_kwargs : DumpsKwargs :=
  {| indent := Some 2%Z; cls := None; ensure_ascii := false;
     default := Some "default" |}.

Section JSONWidget_methods.
Context `{PyLib} `{Django}.
Local Open Scope result_scope.

Definition json_widget_render (name : string) (value : pyval)
           (attrs : dict json) : result string :=
  let value := if is_None value then VStr "" else value in
  value <- (if negb (is_str value) then
              s <- json_dumps widget_dumps_kwargs value ;;
              Ok (VStr s)
            else Ok value) ;;
  textarea_render name value attrs.
End JSONWidget_methods.

(** ** ConditionsWidget *)

Record ConditionsWidget : Type := mkConditionsWidget {
  widget_condition_definitions : Definitions
}.

Definition template_name_dj110_to_dj111_compat : string :=
  "conditions/conditions_widget.html".

(** The [dict] literal appended per condition. *)
Definition reference_entry (condstr : string) (condition : ConditionKind)
  : Entry.t :=
  {| Entry.condstr := condstr;
     Entry.key_required := if key_required condition then "true" else "false";
     Entry.keys_allowed := keys_allowed condition;
     Entry.key_example := key_example condition;
     Entry.operator_required := if is_compare condition then "true" else "false";
     Entry.operators :=
       match compare_info condition with
       | Some c => map fst (operators c)
       | None => []
       end;
     Entry.operand_example :=
       match compare_info condition with
       | Some c => operand_example c
       | None => ""
       end;
     Entry.help_text := help_text condition;
     Entry.description := full_description condition |}.

(** The inner loop and the [sorted] that follows it. *)
Definition conditions_in_group (group : dict ConditionKind) : list Entry.t :=
  py_sorted Entry.condstr
    (map (fun item => reference_entry (fst item) (snd item)) group).

(** The outer loop and the [sorted] that follows it. *)
Definition reference_groups (definitions : Definitions) : list GroupEntry.t :=
  py_sorted GroupEntry.groupname
    (map (fun item =>
            {| GroupEntry.groupname := fst item;
               GroupEntry.conditions := conditions_in_group (snd item) |})
         definitions).

Section ConditionsWidget_methods.
Context `{PyLib} `{Django} `{Engine}.
Local Open Scope traced_scope.

(** [mark_safe] only marks the rendered string; it is the identity here. *)
Definition widget_render (self : ConditionsWidget) (name : string)
           (value : pyval) (attrs : dict json) : traced event string :=
  value <- match value with
           | VCondList c => call (EvEncode c) (Ok (VJson (encode c)))
           | _ => tret value
           end ;;
  textarea <- call (EvSuper "render" value)
                   (json_widget_render name value attrs) ;;
  let condition_groups :=
    reference_groups (widget_condition_definitions self) in
  let context :=
    {| textarea := textarea; condition_groups := condition_groups |} in
  (render_to_string template_name_dj110_to_dj111_compat context, []).
End ConditionsWidget_methods.

(** ** ConditionsFormField *)

Record ConditionsFormField : Type := mkConditionsFormField {
  form_condition_definitions : Definitions
}.

(** [str(e)] *)
Definition exn_str (e : exn) : string :=
  match e with
  | TypeError m | ValueError m | AttributeError m | ValidationError m
  | InvalidConditionError m | MalformedInput m => m
  end.

Section ConditionsFormField_methods.
Context `{Engine}.
(** [JSONFormField.clean], inherited from [conditions/forms.py]. *)
Variable json_form_clean : pyval -> result pyval.
Local Open Scope traced_scope.

Definition clean (self : ConditionsFormField) (value : pyval)
  : traced event pyval :=
  cleaned_json <- call (EvSuper "clean" value) (json_form_clean value) ;;
  if is_None cleaned_json then tret VNone
  else
    try_except_else
      (call (EvDecode cleaned_json)
            (decode cleaned_json (form_condition_definitions self)))
      (fun e =>
         match e with
         | InvalidConditionError _ =>
             Some (traise (ValidationError
                             ("Invalid conditions JSON: " ++ exn_str e)))
         | _ => None
         end)
      (fun _ => tret cleaned_json).
End ConditionsFormField_methods.

(** ** BaseConditionField *)

Record Connection : Type := mkConnection { vendor : string }.

Record BaseConditionField : Type := mkBaseConditionField {
  field_condition_definitions : Definitions
}.

Section BaseConditionField_methods.
Context `{Engine}.
(** The methods of the class that follows the mixin in the method
    resolution order. *)
Variable super_pre_init : pyval -> pyval -> result pyval.
Variable super_dumps_for_display : pyval -> result pyval.
Variable super_get_db_prep_value :
  pyval -> option Connection -> bool -> result pyval.
Local Open Scope traced_scope.

Definition pre_init (self : BaseConditionField) (value obj : pyval)
  : traced event pyval :=
  value <- call (EvSuper "pre_init" value) (super_pre_init value obj) ;;
  if is_dict value then
    c <- call (EvDecode value)
              (decode value (field_condition_definitions self)) ;;
    tret (VCondList c)
  else tret value.

Definition dumps_for_display (self : BaseConditionField) (value : pyval)
  : traced event pyval :=
  value <- match value with
           | VCondList c => call (EvEncode c) (Ok (VJson (encode c)))
           | _ => tret value
           end ;;
  call (EvSuper "dumps_for_display" value) (super_dumps_for_display value).

Definition get_db_prep_value (self : BaseConditionField) (value : pyval)
           (connection : option Connection) (prepared : bool)
  : traced event pyval :=
  value <- match value with
           | VCondList c => call (EvEncode c) (Ok (VJson (encode c)))
           | _ => tret value
           end ;;
  call (EvSuper "get_db_prep_value" value)
       (super_get_db_prep_value value connection prepared).
End BaseConditionField_methods.

(** ** ConditionsField: the mixin over TextJSONField *)

Record ConditionsField : Type := mkConditionsField {
  base : BaseConditionField;
  text : TextJSONField
}.

Section ConditionsField_methods.
Context `{PyLib} `{Engine}.

Definition conditions_field_get_db_prep_value (self : ConditionsField)
           (value : pyval) (connection : option Connection)
           (prepared : bool) : traced event pyval :=
  get_db_prep_value
    (fun v _ _ => text_get_db_prep_value (text self) v)
    (base self) value connection prepared.
End ConditionsField_methods.

(** ** The conditions engine *)

(** Modelled from the spec: the codec and the evaluator of
    [conditions/lists.py].  The definitions below follow sections 3 and 4
    of the specification: leaves are JSON objects
    with the fields condition / key / operator / value, groups are JSON
    objects with the fields op / conditions.  An absent optional field is
    left out by [encode_node]; a [condstr] resolves when exactly one group
    of the registry holds it. *)

Definition op_token (op : boolop) : string :=
  match op with AND => "and" | OR => "or" end.

Definition parse_op (s : string) : option boolop :=
  if String.eqb s "and" || String.eqb s "AND" then Some AND
  else if String.eqb s "or" || String.eqb s "OR" then Some OR
  else None.

(** Modelled from the spec: registry lookup (section 4.1), a kind or a
    "not found" signal; without a group, the condstr must be held by
    exactly one group (invariant 1). *)
Definition registry_lookup (definitions : Definitions) (condstr : string)
           (group : option string) : option ConditionKind :=
  match group with
  | Some g =>
      match dict_get g definitions with
      | Some members => dict_get condstr members
      | None => None
      end
  | None =>
      match flat_map (fun g => match dict_get condstr (snd g) with
                               | Some k => [k]
                               | None => []
                               end) definitions with
      | [k] => Some k
      | _ => None
      end
  end.

Section Traversals.
Context {A B : Type}.

(** Look a field up and transform what is found. *)
Section FindField.
Variables (k : string) (f : A -> B).
Fixpoint find_field (d : dict A) : option B :=
  match d with
  | [] => None
  | (k', v) :: rest =>
      if String.eqb k k' then Some (f v) else find_field rest
  end.
End FindField.

(** Map a fallible function over a sequence, all or nothing. *)
Section MapResult.
Variable f : A -> result B.
Fixpoint map_result (l : list A) : result (list B) :=
  match l with
  | [] => Ok []
  | x :: rest =>
      rbind (f x) (fun y =>
      rbind (map_result rest) (fun ys => Ok (y :: ys)))
  end.
End MapResult.
End Traversals.

Inductive node_class : Type :=
| IsGroup (op : boolop)
| IsLeaf (condstr : string)
| Unrecognized.

(** Modelled from the spec: step 2 of decode (section 4.3).  A node with
    an [op] among and/or is a group, a node with a [condition] identifier
    is a leaf. *)
Definition classify (fields : dict json) : node_class :=
  let leaf_or_not :=
    match dict_get "condition" fields with
    | Some (JStr c) => IsLeaf c
    | _ => Unrecognized
    end in
  match dict_get "op" fields with
  | Some (JStr s) =>
      match parse_op s with
      | Some op => IsGroup op
      | None => leaf_or_not
      end
  | _ => leaf_or_not
  end.

Definition opt_str_field (name condstr : string) (fields : dict json)
  : result (option string) :=
  match dict_get name fields with
  | None => Ok None
  | Some (JStr s) => Ok (Some s)
  | Some _ => Raise (InvalidConditionError
                       ("invalid " ++ name ++ " for condition " ++ condstr))
  end.

Definition invalid {A : Type} (what condstr : string) : result A :=
  Raise (InvalidConditionError (what ++ " for condition " ++ condstr)).

(** Modelled from the spec: invariants 2 to 4 of section 3, checked
    against the resolved kind (step 3 of decode). *)
Definition check_leaf (kind : ConditionKind) (condstr : string)
           (key operator : option string) (operand : option json)
  : result unit :=
  rbind (match key with
         | None => if key_required kind then invalid "missing key" condstr
                   else match keys_allowed kind with
                        | [] => Ok tt
                        | _ => invalid "missing key" condstr
                        end
         | Some k => match keys_allowed kind with
                     | [] => Ok tt
                     | allowed => if str_in k allowed then Ok tt
                                  else invalid "invalid key" condstr
                     end
         end) (fun _ =>
  match compare_info kind with
  | Some cmp =>
      match operator with
      | None => invalid "missing operator" condstr
      | Some o =>
          if str_in o (map fst (operators cmp)) then
            match operand with
            | None => invalid "missing operand" condstr
            | Some _ => Ok tt
            end
          else invalid "invalid operator" condstr
      end
  | None =>
      match operator, operand with
      | None, None => Ok tt
      | Some _, _ => invalid "unexpected operator" condstr
      | None, Some _ => invalid "unexpected operand" condstr
      end
  end).

Definition decode_leaf (definitions : Definitions) (condstr : string)
           (fields : dict json) : result TreeNode :=
  match registry_lookup definitions condstr None with
  | None => Raise (InvalidConditionError ("unknown condition " ++ condstr))
  | Some kind =>
      rbind (opt_str_field "key" condstr fields) (fun key =>
      rbind (opt_str_field "operator" condstr fields) (fun operator =>
      let operand := dict_get "value" fields in
      rbind (check_leaf kind condstr key operator operand) (fun _ =>
      Ok (Leaf condstr key operator operand))))
  end.

Definition group_of (op : boolop) (children : list TreeNode)
  : result TreeNode :=
  match children with
  | [] => Raise (InvalidConditionError "empty group")
  | _ => Ok (Group op children)
  end.

(** Modelled from the spec: [CondList.decode], steps 2 to 5 of section
    4.3; all or nothing. *)
Fixpoint decode_node (definitions : Definitions) (j : json)
  : result TreeNode :=
  match j with
  | JObj fields =>
      match classify fields with
      | IsGroup op =>
          match find_field "conditions"
                  (fun v => match v with
                            | JArr items =>
                                Some (map_result (decode_node definitions) items)
                            | _ => None
                            end) fields with
          | Some (Some children) => rbind children (group_of op)
          | _ => Raise (InvalidConditionError "group without conditions")
          end
      | IsLeaf condstr => decode_leaf definitions condstr fields
      | Unrecognized =>
          Raise (InvalidConditionError "neither a condition nor a group")
      end
  | _ => Raise (InvalidConditionError "neither a condition nor a group")
  end.

(** Modelled from the spec: the top level must describe a leaf or a
    group, checked before any registry lookup (section 7, malformed
    input). *)
Definition recognizable (j : json) : bool :=
  match j with
  | JObj fields =>
      match classify fields with Unrecognized => false | _ => true end
  | _ => false
  end.

Definition spec_decode (v : pyval) (definitions : Definitions)
  : result CondList :=
  match v with
  | VJson j =>
      if recognizable j then
        rbind (decode_node definitions j) (fun t => Ok (mkCondList t))
      else Raise (MalformedInput "neither a condition nor a group")
  | _ => Raise (MalformedInput "neither a condition nor a group")
  end.

Definition opt_field {A : Type} (name : string) (f : A -> json)
           (o : option A) : dict json :=
  match o with Some a => [(name, f a)] | None => [] end.

Definition leaf_fields (condstr : string) (key operator : option string)
           (operand : option json) : dict json :=
  ("condition", JStr condstr)
    :: opt_field "key" JStr key
    ++ opt_field "operator" JStr operator
    ++ opt_field "value" (fun v => v) operand.

(** Modelled from the spec: [CondList.encode] (section 4.4), the fixed
    field names and no validation. *)
Fixpoint encode_node (t : TreeNode) : json :=
  match t with
  | Leaf condstr key operator operand =>
      JObj (leaf_fields condstr key operator operand)
  | Group op children =>
      JObj [("op", JStr (op_token op));
            ("conditions", JArr (map encode_node children))]
  end.

Definition spec_encode (c : CondList) : json := encode_node (root c).

#[export] Instance spec_engine : Engine :=
  {| decode := spec_decode; encode := spec_encode |}.



(** *** Evaluator *)

(** Modelled from the spec: the evaluation of a leaf (section 4.5).  The
    kind is resolved and its predicate invoked; for a compare kind, the
    operator's comparison on the operand and the value derived from the
    context and the key. *)

Definition eval_leaf (definitions : Definitions) (context : json)
           (condstr : string) (key operator : option string)
           (operand : option json) : result bool :=
  match registry_lookup definitions condstr None with
  | None => Raise (InvalidConditionError ("unknown condition " ++ condstr))
  | Some kind =>
      match compare_info kind with
      | None => Ok (check kind context key)
      | Some cmp =>
          match operator, operand with
          | Some o, Some v =>
              match dict_get o (operators cmp) with
              | Some f => Ok (f v (value_of cmp context key))
              | None => invalid "invalid operator" condstr
              end
          | None, _ => invalid "missing operator" condstr
          | Some _, None => invalid "missing operand" condstr
          end
      end
  end.

(** Modelled from the spec: the evaluation of a group (section 4.5),
    children in declared order with short circuit; the trace lists the
    leaves whose predicate was invoked. *)
Section EvalChildren.
Variable ev : TreeNode -> traced TreeNode bool.

Fixpoint eval_and (children : list TreeNode) : traced TreeNode bool :=
  match children with
  | [] => tret true
  | c :: rest => tbind (ev c) (fun b => if b then eval_and rest else tret false)
  end.

Fixpoint eval_or (children : list TreeNode) : traced TreeNode bool :=
  match children with
  | [] => tret false
  | c :: rest => tbind (ev c) (fun b => if b then tret true else eval_or rest)
  end.
End EvalChildren.

Fixpoint evaluate_node (definitions : Definitions) (context : json)
         (t : TreeNode) : traced TreeNode bool :=
  match t with
  | Leaf condstr key operator operand =>
      call t (eval_leaf definitions context condstr key operator operand)
  | Group AND children => eval_and (evaluate_node definitions context) children
  | Group OR children => eval_or (evaluate_node definitions context) children
  end.

Definition evaluate (c : CondList) (definitions : Definitions)
           (context : json) : traced TreeNode bool :=
  evaluate_node definitions context (root c).

(** ** TextJSONField: defaults, validation and loading *)

(** [json.loads] with the field's decoder keyword arguments (keyword to
    the name of the hook it sets), and the [%] operator on [str]. *)
Class PyText : Type := {
  json_loads : dict string -> string -> result pyval;
  py_format : string -> pyval -> result string
}.

(** [self.default]: Django's [NOT_PROVIDED], a value, or a callable given
    by what calling it returns. *)
Inductive DefaultAttr : Type :=
| NOT_PROVIDED
| DefaultValue (v : pyval)
| DefaultCallable (returns : result pyval).

(** The attributes of a [TextJSONField] its other methods read: those of
    [TextJSONField] above, [decoder_kwargs], [default], and the entries
    [null] and [invalid] of [error_messages]. *)
Record FieldAttrs : Type := mkFieldAttrs {
  field : TextJSONField;
  decoder_kwargs : dict string;
  default_attr : DefaultAttr;
  error_messages_null : string;
  error_messages_invalid : string
}.

Section TextJSONField_more_methods.
Context `{PyLib} `{PyText}.
Local Open Scope result_scope.

(** [validate] returns [None] when it does not raise. *)
Definition validate (self : FieldAttrs) (value : pyval) : result pyval :=
  if negb (null (field self)) && is_None value then
    Raise (ValidationError (error_messages_null self))
  else
    match get_prep_value (field self) value with
    | Raise (ValueError _) =>
        msg <- py_format (error_messages_invalid self) value ;;
        Raise (ValidationError msg)
    | Raise e => Raise e
    | Ok _ => Ok VNone
    end.

(** [has_default()] is Django's test that [default] is not
    [NOT_PROVIDED]; [super_get_default] is the inherited [get_default]. *)
Definition get_default (super_get_default : result pyval) (self : FieldAttrs)
  : result pyval :=
  match default_attr self with
  | NOT_PROVIDED => super_get_default
  | d =>
      default <- match d with
                 | DefaultCallable returns => returns
                 | DefaultValue v => Ok v
                 | NOT_PROVIDED => super_get_default
                 end ;;
      match default with
      | VJson (JStr text) => json_loads (decoder_kwargs self) text
      | _ =>
          text <- json_dumps (encoder_kwargs (field self)) default ;;
          json_loads (decoder_kwargs self) text
      end
  end.

Definition from_db_value (self : FieldAttrs) (value : pyval) : result pyval :=
  if is_None value then Ok VNone
  else match value with
       | VJson (JStr text) => json_loads (decoder_kwargs self) text
       | _ => Ok value
       end.

End TextJSONField_more_methods.

(** ** Construction *)

(** The settings [TextJSONField.__init__] reads with [getattr(settings,
    name, default)]: an absent setting and a setting of [None] read the
    same for the first two; an absent [JSONFIELD_DECODER_KWARGS] reads as
    the empty dict. *)
Record Settings : Type := mkSettings {
  JSONFIELD_INDENT : option Z;
  JSONFIELD_ENCODER_CLASS : option string;
  JSONFIELD_DECODER_KWARGS : option (dict string)
}.

(** The keyword arguments the constructors look at; [None] is a keyword
    that was not passed.  The remaining keywords go to Django as they are. *)
Record FieldKwargs : Type := mkFieldKwargs {
  kw_null : option bool;
  kw_blank : option bool;
  kw_default : option DefaultAttr;
  kw_indent : option (option Z);
  kw_encoder_class : option (option string);
  kw_decoder_kwargs : option (dict string);
  kw_definitions : option Definitions
}.

(** [kwargs.get(key, default)] and [kwargs.pop(key, default)] on one
    keyword. *)
Definition kwarg_or {A : Type} (given : option A) (otherwise : A) : A :=
  match given with Some a => a | None => otherwise end.

(** [if encoder_class:] on a class, an import path or [None]. *)
Definition encoder_class_truthy (encoder_class : option string) : bool :=
  match encoder_class with
  | None => false
  | Some path => negb (String.eqb path "")
  end.

Section TextJSONField_init.
Context `{PyLib} `{PyText}.
(** [_resolve_object_path] of [conditions/utils.py]. *)
Variable resolve_object_path : string -> string.
Variable settings : Settings.
(** The [null] and [invalid] entries Django collects in
    [error_messages]. *)
Variables message_null message_invalid : string.
Variable super_get_default : result pyval.
Local Open Scope result_scope.

(** The keyword [default] as it reaches Django's [Field.__init__]. *)
Definition init_default (kwargs : FieldKwargs) : option DefaultAttr :=
  if negb (kwarg_or (kw_null kwargs) false) then
    Some (kwarg_or (kw_default kwargs)
                   (DefaultCallable (Ok (VJson (JObj [])))))
  else kw_default kwargs.

Definition init_encoder_kwargs (kwargs : FieldKwargs) : DumpsKwargs :=
  let indent := kwarg_or (kw_indent kwargs) (JSONFIELD_INDENT settings) in
  let encoder_class :=
    kwarg_or (kw_encoder_class kwargs) (JSONFIELD_ENCODER_CLASS settings) in
  {| indent := indent;
     cls := if encoder_class_truthy encoder_class
            then option_map resolve_object_path encoder_class
            else None;
     ensure_ascii := true;
     default := None |}.

Definition init_decoder_kwargs (kwargs : FieldKwargs) : dict string :=
  kwarg_or (kw_decoder_kwargs kwargs)
           (kwarg_or (JSONFIELD_DECODER_KWARGS settings) []).

(** The field once [super().__init__] has run: Django's [Field.__init__]
    stores [null] and [blank] (both [False] when not passed) and
    [default] ([NOT_PROVIDED] when not passed). *)
Definition init_attrs (kwargs : FieldKwargs) : FieldAttrs :=
  {| field := {| null := kwarg_or (kw_null kwargs) false;
                 blank := kwarg_or (kw_blank kwargs) false;
                 encoder_kwargs := init_encoder_kwargs kwargs |};
     decoder_kwargs := init_decoder_kwargs kwargs;
     default_attr := kwarg_or (init_default kwargs) NOT_PROVIDED;
     error_messages_null := message_null;
     error_messages_invalid := message_invalid |}.

(** [TextJSONField.__init__]: the attributes, then
    [self.validate(self.get_default(), None)]. *)
Definition text_json_field_init (kwargs : FieldKwargs) : result FieldAttrs :=
  let self := init_attrs kwargs in
  d <- get_default super_get_default self ;;
  validate self d ;;
  Ok self.

(** [ConditionsField.__init__]: [definitions] is popped, the rest is
    [TextJSONField.__init__]. *)
Definition conditions_field_init (kwargs : FieldKwargs)
  : result (BaseConditionField * FieldAttrs) :=
  let condition_definitions := kwarg_or (kw_definitions kwargs) [] in
  self <- text_json_field_init kwargs ;;
  Ok ({| field_condition_definitions := condition_definitions |}, self).

End TextJSONField_init.

(** *** Widgets and form fields *)

Definition dict_has {A : Type} (k : string) (d : dict A) : bool :=
  match dict_get k d with Some _ => true | None => false end.

(** [d[k] = v]: an existing key keeps its place, a new key goes last. *)
Fixpoint dict_set {A : Type} (k : string) (v : A) (d : dict A) : dict A :=
  match d with
  | [] => [(k, v)]
  | (k', v') :: rest =>
      if String.eqb k k' then (k, v) :: rest
      else (k', v') :: dict_set k v rest
  end.

(** [d.update(other)] *)
Definition dict_update {A : Type} (d other : dict A) : dict A :=
  fold_left (fun acc item => dict_set (fst item) (snd item) acc) other d.

(** The keywords [ConditionsWidget.__init__] looks at; [attrs], when
    passed, is a dict. *)
Record WidgetKwargs : Type := mkWidgetKwargs {
  wk_condition_definitions : option Definitions;
  wk_attrs : option (dict json)
}.

(** A constructed [ConditionsWidget]: the widget, and the [attrs] its
    constructor handed to [Textarea.__init__]. *)
Record WidgetInstance : Type := mkWidgetInstance {
  widget : ConditionsWidget;
  widget_attrs : dict json
}.

Definition conditions_widget_init (kwargs : WidgetKwargs) : WidgetInstance :=
  let condition_definitions := kwarg_or (wk_condition_definitions kwargs) [] in
  let attrs := kwarg_or (wk_attrs kwargs) [] in
  let attrs := if negb (dict_has "cols" attrs)
               then dict_set "cols" (JNum 50) attrs
               else attrs in
  {| widget := {| widget_condition_definitions := condition_definitions |};
     widget_attrs := attrs |}.

(** The [widget] keyword of a form field: a [ConditionsWidget], or some
    other widget, by name. *)
Inductive WidgetArg : Type :=
| ConditionsWidgetArg (w : WidgetInstance)
| OtherWidget (name : string).

Record FormKwargs : Type := mkFormKwargs {
  fk_condition_definitions : option Definitions;
  fk_widget : option WidgetArg
}.

(** A constructed [ConditionsFormField]: the form field, and the [widget]
    keyword its constructor handed to [JSONFormField.__init__]. *)
Record FormInstance : Type := mkFormInstance {
  form : ConditionsFormField;
  form_widget : WidgetArg
}.

Definition conditions_form_field_init (kwargs : FormKwargs) : FormInstance :=
  let condition_definitions := kwarg_or (fk_condition_definitions kwargs) [] in
  let widget :=
    match fk_widget kwargs with
    | Some w => w
    | None =>
        ConditionsWidgetArg
          (conditions_widget_init
             {| wk_condition_definitions := Some condition_definitions;
                wk_attrs := None |})
    end in
  {| form := {| form_condition_definitions := condition_definitions |};
     form_widget := widget |}.

(** [BaseConditionField.formfield] *)
Definition base_formfield (self : BaseConditionField) (kwargs : FormKwargs)
  : FormInstance :=
  conditions_form_field_init
    {| fk_condition_definitions := Some (field_condition_definitions self);
       fk_widget := fk_widget kwargs |}.

(** A keyword value of [formfield]: a class by name, or a value. *)
Inductive kwval : Type :=
| KClass (name : string)
| KValue (v : pyval).

(** [TextJSONField.formfield]: the keywords handed to
    [super().formfield]. *)
Definition text_formfield_kwargs (kwargs : dict kwval) : dict kwval :=
  let defaults := [("form_class", KClass "JSONFormField");
                   ("widget", KClass "JSONWidget")] in
  dict_update defaults kwargs.

(** ** Concrete collaborators, to run the model on inputs *)

Definition dquote : string := String (ascii_of_nat 34) EmptyString.

(** The compact rendering of [json.dumps] (separators [", "] and [": "]);
    strings are quoted as they are, which is what Python prints for
    strings that need no escape. *)
Fixpoint dumps_compact (j : json) : string :=
  match j with
  | JNull => "null"
  | JBool true => "true"
  | JBool false => "false"
  | JNum n => NilZero.string_of_int (Z.to_int n)
  | JStr s => (dquote ++ s ++ dquote)%string
  | JArr items =>
      ("[" ++ (fix each (l : list json) : string :=
                 match l with
                 | [] => ""
                 | x :: rest =>
                     match rest with
                     | [] => dumps_compact x
                     | _ => dumps_compact x ++ ", " ++ each rest
                     end
                 end) items ++ "]")%string
  | JObj fields =>
      ("{" ++ (fix each (l : list (string * json)) : string :=
                 match l with
                 | [] => ""
                 | (k, v) :: rest =>
                     let item := dquote ++ k ++ dquote ++ ": " ++ dumps_compact v in
                     match rest with
                     | [] => item
                     | _ => item ++ ", " ++ each rest
                     end
                 end) fields ++ "}")%string
  end.

Definition compact_pylib : PyLib :=
  {| json_dumps := fun _ v =>
       match v with
       | VJson j => Ok (dumps_compact j)
       | VTuple items => Ok (dumps_compact (JArr items))
       | VCondList _ =>
           Raise (TypeError "Object of type CondList is not JSON serializable")
       end;
     py_repr := fun s => ("'" ++ s ++ "'")%string |}.

Definition plain_django : Django :=
  {| textarea_render := fun name value _ =>
       match value with
       | VJson (JStr s) =>
           Ok ("<textarea name=" ++ name ++ ">" ++ s ++ "</textarea>")%string
       | _ => Raise (TypeError "expected str")
       end;
     render_to_string := fun _ context =>
       Ok (textarea context
             ++ String.concat "," (map GroupEntry.groupname
                                       (condition_groups context)))%string |}.


(** The registry of the specification's end-to-end examples: group
    [basic] holds [always_true]; group [cmp] holds the compare kind [age]
    with the operators [eq] and [gt]. *)
Definition json_num_rel (rel : Z -> Z -> bool) (operand value : json) : bool :=
  match operand, value with
  | JNum a, JNum b => rel b a
  | _, _ => false
  end.

Definition always_true : ConditionKind :=
  {| key_required := false; keys_allowed := []; key_example := "";
     help_text := "Always true"; full_description := "always_true";
     check := fun _ _ => true; compare_info := None |}.

Definition age : ConditionKind :=
  {| key_required := false; keys_allowed := []; key_example := "";
     help_text := "Age of the user"; full_description := "age";
     check := fun _ _ => false;
     compare_info :=
       Some {| operators := [("eq", json_num_rel Z.eqb);
                             ("gt", json_num_rel Z.gtb)];
               operand_example := "18";
               value_of := fun context _ =>
                 match context with
                 | JObj fields =>
                     match dict_get "age" fields with
                     | Some v => v
                     | None => JNull
                     end
                 | _ => JNull
                 end |} |}.

Definition example_definitions : Definitions :=
  [("cmp", [("age", age)]); ("basic", [("always_true", always_true)])].

Definition unknown_leaf : pyval :=
  VJson (JObj [("condition", JStr "unknown_cond")]).

Definition example_form : ConditionsFormField :=
  {| form_condition_definitions := example_definitions |}.

Definition example_condlist : CondList :=
  mkCondList (Group OR [Leaf "always_true" None None None]).

Definition example_field : ConditionsField :=
  {| base := {| field_condition_definitions := example_definitions |};
     text := {| null := false; blank := true;
                encoder_kwargs := {| indent := None; cls := None;
                                     ensure_ascii := true;
                                     default := None |} |} |}.

Definition or_group_json : pyval :=
  VJson (JObj [("op", JStr "or");
               ("conditions", JArr [JObj [("condition", JStr "always_true")]])]).

Definition example_context : json := JObj [("age", JNum 21)].

Definition age_over_30 : TreeNode :=
  Leaf "age" None (Some "gt") (Some (JNum 30)).

Definition unknown_node : TreeNode := Leaf "unknown_cond" None None None.

Definition example_widget : ConditionsWidget :=
  {| widget_condition_definitions := example_definitions |}.

Definition age_leaf_json (with_operator : bool) : pyval :=
  VJson (JObj (("condition", JStr "age")
                 :: (if with_operator then [("operator", JStr "gt")] else [])
                 ++ [("value", JNum 18)])).

(** A reader for the JSON text [dumps_compact] writes (and blanks
    between tokens): [json.loads] on text without escapes, exponents or
    fractions.  [fuel] bounds the nesting depth. *)
Definition quote_char : ascii := ascii_of_nat 34.

Definition is_blank (c : ascii) : bool :=
  let n := nat_of_ascii c in
  Nat.eqb n 32 || Nat.eqb n 10 || Nat.eqb n 9 || Nat.eqb n 13.

Definition is_digit (c : ascii) : bool :=
  let n := nat_of_ascii c in
  Nat.leb 48 n && Nat.leb n 57.

Fixpoint skip_blanks (s : string) : string :=
  match s with
  | String c rest => if is_blank c then skip_blanks rest else s
  | EmptyString => s
  end.

Fixpoint strip_prefix (p s : string) : option string :=
  match p with
  | EmptyString => Some s
  | String a p' =>
      match s with
      | String b s' => if Ascii.eqb a b then strip_prefix p' s' else None
      | EmptyString => None
      end
  end.

Fixpoint read_until_quote (s : string) : option (string * string) :=
  match s with
  | EmptyString => None
  | String c rest =>
      if Ascii.eqb c quote_char then Some (EmptyString, rest)
      else match read_until_quote rest with
           | Some (body, rest') => Some (String c body, rest')
           | None => None
           end
  end.

Fixpoint read_digits (acc : Z) (s : string) : Z * string :=
  match s with
  | String c rest =>
      if is_digit c
      then read_digits (10 * acc + (Z.of_nat (nat_of_ascii c) - 48))%Z rest
      else (acc, s)
  | EmptyString => (acc, s)
  end.

Definition starts_with_digit (s : string) : bool :=
  match s with String c _ => is_digit c | EmptyString => false end.

Fixpoint read_value (fuel : nat) (s : string) : option (json * string) :=
  match fuel with
  | O => None
  | S fuel' =>
      let s := skip_blanks s in
      match strip_prefix "null" s, strip_prefix "true" s,
            strip_prefix "false" s, strip_prefix "-" s,
            strip_prefix "[" s, strip_prefix "{" s with
      | Some rest, _, _, _, _, _ => Some (JNull, rest)
      | _, Some rest, _, _, _, _ => Some (JBool true, rest)
      | _, _, Some rest, _, _, _ => Some (JBool false, rest)
      | _, _, _, Some rest, _, _ =>
          if starts_with_digit rest
          then let (n, rest') := read_digits 0 rest in Some (JNum (- n), rest')
          else None
      | _, _, _, _, Some rest, _ =>
          match strip_prefix "]" (skip_blanks rest) with
          | Some rest' => Some (JArr [], rest')
          | None =>
              (fix items (k : nat) (s : string) (acc : list json)
                 : option (json * string) :=
                 match k with
                 | O => None
                 | S k' =>
                     match read_value fuel' s with
                     | None => None
                     | Some (v, rest) =>
                         let rest := skip_blanks rest in
                         match strip_prefix "," rest, strip_prefix "]" rest with
                         | Some rest', _ => items k' rest' (v :: acc)
                         | _, Some rest' => Some (JArr (rev (v :: acc)), rest')
                         | _, _ => None
                         end
                     end
                 end) (String.length rest) rest []
          end
      | _, _, _, _, _, Some rest =>
          match strip_prefix "}" (skip_blanks rest) with
          | Some rest' => Some (JObj [], rest')
          | None =>
              (fix members (k : nat) (s : string) (acc : list (string * json))
                 : option (json * string) :=
                 match k with
                 | O => None
                 | S k' =>
                     match skip_blanks s with
                     | String c after =>
                         if Ascii.eqb c quote_char then
                           match read_until_quote after with
                           | None => None
                           | Some (name, rest) =>
                               match strip_prefix ":" (skip_blanks rest) with
                               | None => None
                               | Some rest =>
                                   match read_value fuel' rest with
                                   | None => None
                                   | Some (v, rest) =>
                                       let rest := skip_blanks rest in
                                       match strip_prefix "," rest,
                                             strip_prefix "}" rest with
                                       | Some rest', _ =>
                                           members k' rest' ((name, v) :: acc)
                                       | _, Some rest' =>
                                           Some (JObj (rev ((name, v) :: acc)), rest')
                                       | _, _ => None
                                       end
                                   end
                               end
                           end
                         else None
                     | EmptyString => None
                     end
                 end) (String.length rest) rest []
          end
      | None, None, None, None, None, None =>
          match s with
          | String c after =>
              if Ascii.eqb c quote_char then
                match read_until_quote after with
                | Some (body, rest) => Some (JStr body, rest)
                | None => None
                end
              else if is_digit c
              then let (n, rest) := read_digits 0 s in Some (JNum n, rest)
              else None
          | EmptyString => None
          end
      end
  end.

Definition loads_compact (text : string) : result pyval :=
  match read_value (S (String.length text)) text with
  | Some (j, rest) =>
      match skip_blanks rest with
      | EmptyString => Ok (VJson j)
      | _ => Raise (ValueError "Extra data")
      end
  | None => Raise (ValueError "Expecting value")
  end.

(** [str(value)] for the values whose printed form the examples need;
    lists and dicts print as their JSON text here. *)
Definition display (v : pyval) : string :=
  match v with
  | VJson JNull => "None"
  | VJson (JBool true) => "True"
  | VJson (JBool false) => "False"
  | VJson (JStr s) => s
  | VJson j => dumps_compact j
  | VTuple items => dumps_compact (JArr items)
  | VCondList _ => "CondList"
  end.

(** [format % value] for a format with one [%s]: a tuple supplies the
    arguments, so it must have exactly one item. *)
Definition format_one (format : string) (value : pyval) : result string :=
  let fill (text : string) :=
    match index 0 "%s" format with
    | Some n =>
        Ok (substring 0 n format ++ text
              ++ substring (n + 2) (String.length format - (n + 2)) format)%string
    | None => Raise (TypeError "not all arguments converted during string formatting")
    end in
  match value with
  | VTuple [item] => fill (display (VJson item))
  | VTuple [] => Raise (TypeError "not enough arguments for format string")
  | VTuple _ =>
      Raise (TypeError "not all arguments converted during string formatting")
  | _ => fill (display value)
  end.

Definition compact_pytext : PyText :=
  {| json_loads := fun _ text => loads_compact text;
     py_format := format_one |}.

(** A [json.dumps] whose encoder class refuses a boolean, and a tuple
    that starts with one, with a [ValueError]; any other value is written
    as by [compact_pylib]. *)
Definition no_bool_pylib : PyLib :=
  {| json_dumps := fun kwargs v =>
       match v with
       | VJson (JBool _) | VTuple (JBool _ :: _) =>
           Raise (ValueError "booleans are not accepted")
       | _ => @json_dumps compact_pylib kwargs v
       end;
     py_repr := @py_repr compact_pylib |}.

Definition no_settings : Settings :=
  {| JSONFIELD_INDENT := None; JSONFIELD_ENCODER_CLASS := None;
     JSONFIELD_DECODER_KWARGS := None |}.

Definition no_kwargs : FieldKwargs :=
  {| kw_null := None; kw_blank := None; kw_default := None;
     kw_indent := None; kw_encoder_class := None;
     kw_decoder_kwargs := None; kw_definitions := None |}.

Definition example_attrs : FieldAttrs :=
  {| field := text example_field;
     decoder_kwargs := [];
     default_attr := DefaultCallable (Ok (VJson (JObj [])));
     error_messages_null := "This field cannot be null.";
     error_messages_invalid := "'%s' is not a valid JSON string." |}.

Definition example_init : FieldKwargs -> result FieldAttrs :=
  @text_json_field_init compact_pylib compact_pytext (fun path => path)
    no_settings "This field cannot be null."
    "'%s' is not a valid JSON string." (Ok VNone).

Definition example_init_attrs : FieldKwargs -> FieldAttrs :=
  init_attrs (fun path => path) no_settings "This field cannot be null."
             "'%s' is not a valid JSON string.".

(** [default=None], with or without [null]. *)
Definition default_none_kwargs (null : option bool) : FieldKwargs :=
  {| kw_null := null; kw_blank := None;
     kw_default := Some (DefaultValue VNone);
     kw_indent := None; kw_encoder_class := None;
     kw_decoder_kwargs := None; kw_definitions := None |}.

(** [default=NOT_PROVIDED], passed as it is. *)
Definition not_provided_kwargs : FieldKwargs :=
  {| kw_null := None; kw_blank := None;
     kw_default := Some NOT_PROVIDED;
     kw_indent := None; kw_encoder_class := None;
     kw_decoder_kwargs := None; kw_definitions := None |}.

(* ================================================================== *)
(** * Part II: properties *)
(* ================================================================== *)

(** Split a conjunction into its parts, introducing nothing. *)
Ltac split_conj := repeat match goal with |- _ /\ _ => split end.

Section TextJSONField_properties.
Context `{PyLib}.

(** C9: [get_prep_value] maps [None] to the empty string when the field
    is non-null and blank, maps [None] to [None] otherwise, and maps
    every other value to [json.dumps] of it under the field's encoder
    settings. *)
Theorem get_prep_value_cases (self : TextJSONField) (value : pyval) :
  (value = VNone -> null self = false -> blank self = true ->
     get_prep_value self value = Ok (VStr "")) /\
  (value = VNone -> null self = true \/ blank self = false ->
     get_prep_value self value = Ok VNone) /\
  (value <> VNone ->
     get_prep_value self value =
       rbind (json_dumps (encoder_kwargs self) value)
             (fun s => Ok (VStr s))).
Proof.
  unfold get_prep_value.
  repeat split.
  - intros -> -> ->. reflexivity.
  - intros -> [-> | ->]; simpl; [reflexivity|].
    destruct (null self); reflexivity.
  - intros Hv. destruct value as [[] | |]; try reflexivity. congruence.
Qed.

(** Membership test of [lookup_type in [...]]. *)
Lemma str_in_In (x : string) (l : list string) :
  str_in x l = true <-> In x l.
Proof.
  unfold str_in. rewrite existsb_exists. split.
  - intros (y & Hy & E). apply String.eqb_eq in E. now subst.
  - intros Hx. exists x. split; [assumption | apply String.eqb_refl].
Qed.

Lemma str_in_not_In (x : string) (l : list string) :
  str_in x l = false <-> ~ In x l.
Proof.
  rewrite <- str_in_In. destruct (str_in x l); split; congruence.
Qed.

(** C10: [get_prep_lookup] returns the value unchanged for exact, iexact,
    in and isnull; raises [TypeError] for a lookup type outside the six
    it knows; and for contains / icontains on a list or tuple raises
    [TypeError], whatever the statement after the raise would do. *)
Theorem get_prep_lookup_cases (self : TextJSONField) (lookup_type : string)
        (value : pyval) :
  (In lookup_type ["exact"; "iexact"; "in"; "isnull"] ->
     get_prep_lookup self lookup_type value = Ok value) /\
  (~ In lookup_type
       ["exact"; "iexact"; "in"; "isnull"; "contains"; "icontains"] ->
     get_prep_lookup self lookup_type value =
       Raise (TypeError ("Lookup type " ++ py_repr lookup_type
                         ++ " not supported"))) /\
  (In lookup_type ["contains"; "icontains"] ->
   is_list_or_tuple value = true ->
     get_prep_lookup self lookup_type value =
       Raise (TypeError ("Lookup type " ++ py_repr lookup_type
                         ++ " not supported with argument of "
                         ++ type_name value))).
Proof.
  unfold get_prep_lookup. repeat split.
  - intros Hin. apply str_in_In in Hin. now rewrite Hin.
  - intros Hout.
    assert (H1 : str_in lookup_type ["exact"; "iexact"; "in"; "isnull"] = false).
    { apply str_in_not_In. intros Hin. apply Hout. simpl in *. tauto. }
    assert (H2 : str_in lookup_type ["contains"; "icontains"] = false).
    { apply str_in_not_In. intros Hin. apply Hout. simpl in *. tauto. }
    now rewrite H1, H2.
  - intros Hin Hseq.
    assert (H1 : str_in lookup_type ["exact"; "iexact"; "in"; "isnull"] = false).
    { simpl in Hin. destruct Hin as [<- | [<- | []]]; reflexivity. }
    apply str_in_In in Hin. rewrite H1, Hin, Hseq. reflexivity.
Qed.

End TextJSONField_properties.

(** [get_prep_value] on [None] for a blank non-null field, and on a dict. *)
Lemma get_prep_value_cases_witness :
  @get_prep_value compact_pylib (text example_field) VNone = Ok (VStr "") /\
  @get_prep_value compact_pylib (text example_field)
     (VJson (JObj [("condition", JStr "always_true")]))
    = Ok (VStr (dumps_compact (JObj [("condition", JStr "always_true")]))).
Proof.
  split.
  - apply (@get_prep_value_cases compact_pylib (text example_field) VNone);
      reflexivity.
  - destruct (@get_prep_value_cases compact_pylib (text example_field)
                (VJson (JObj [("condition", JStr "always_true")])))
      as (_ & _ & Hdumps).
    rewrite Hdumps; [reflexivity | discriminate].
Defined.

(** [get_prep_lookup] run on an exact lookup, an unknown lookup type and a
    contains lookup with a list argument. *)
Lemma get_prep_lookup_cases_witness :
  let self := {| null := false; blank := true;
                 encoder_kwargs := {| indent := None; cls := None;
                                      ensure_ascii := true;
                                      default := None |} |} in
  let value := VJson (JArr [JNum 1; JNum 2]) in
  @get_prep_lookup compact_pylib self "exact" value = Ok value /\
  @get_prep_lookup compact_pylib self "regex" value =
    Raise (TypeError "Lookup type 'regex' not supported") /\
  @get_prep_lookup compact_pylib self "contains" value =
    Raise (TypeError "Lookup type 'contains' not supported with argument of list").
Proof.
  intros self value.
  destruct (@get_prep_lookup_cases compact_pylib self "exact" value)
    as (Hexact & _ & _).
  destruct (@get_prep_lookup_cases compact_pylib self "regex" value)
    as (_ & Hother & _).
  destruct (@get_prep_lookup_cases compact_pylib self "contains" value)
    as (_ & _ & Hseq).
  split; [| split].
  - apply Hexact. simpl. tauto.
  - apply Hother. simpl. intros H. repeat destruct H as [H | H]; discriminate H || exact H.
  - apply Hseq; [simpl; tauto | reflexivity].
Defined.

(** ** ConditionsFormField.clean *)

Section ConditionsFormField_properties.
Context `{Engine}.
Variable json_form_clean : pyval -> result pyval.
Variable self : ConditionsFormField.

Let definitions := form_condition_definitions self.

(** What [clean] does, by the outcome of the inherited [clean] and of
    [decode]. *)
Lemma clean_unfold (value : pyval) :
  clean json_form_clean self value =
    match json_form_clean value with
    | Raise e => (Raise e, [EvSuper "clean" value])
    | Ok cleaned_json =>
        if is_None cleaned_json then (Ok VNone, [EvSuper "clean" value])
        else
          (match decode cleaned_json definitions with
           | Ok _ => Ok cleaned_json
           | Raise (InvalidConditionError m) =>
               Raise (ValidationError ("Invalid conditions JSON: " ++ m))
           | Raise e => Raise e
           end,
           [EvSuper "clean" value; EvDecode cleaned_json])
    end.
Proof.
  unfold clean, call, tbind, try_except_else, tret, traise, definitions.
  destruct (json_form_clean value) as [cleaned_json | e]; [| reflexivity].
  destruct (is_None cleaned_json); [reflexivity |].
  destruct (decode cleaned_json (form_condition_definitions self))
    as [c | []]; reflexivity.
Qed.

(** C8: when the inherited [clean] returns [None], [clean] returns
    [None]; [decode] is not called and nothing is raised. *)
Theorem clean_none_skips_decode (value : pyval) :
  json_form_clean value = Ok VNone ->
  clean json_form_clean self value = (Ok VNone, [EvSuper "clean" value]) /\
  existsb is_EvDecode (snd (clean json_form_clean self value)) = false.
Proof.
  intros Hsuper. rewrite clean_unfold, Hsuper. split; reflexivity.
Qed.



End ConditionsFormField_properties.

(** The empty input: the inherited [clean] gives [None]. *)
Lemma clean_none_skips_decode_witness :
  clean (fun _ => Ok VNone) example_form (VStr "") =
    (Ok VNone, [EvSuper "clean" (VStr "")]) /\
  existsb is_EvDecode
    (snd (clean (fun _ => Ok VNone) example_form (VStr ""))) = false.
Proof.
  apply (clean_none_skips_decode (fun _ => Ok VNone) example_form (VStr "")).
  reflexivity.
Defined.




(** ** sorted *)

Section String_order.






End String_order.

Section PySorted_properties.
Context {A : Type} (key : A -> string).

Lemma insert_by_perm (x : A) (l : list A) :
  Permutation (insert_by key x l) (x :: l).
Proof.
  induction l as [| y l IH]; simpl; [reflexivity |].
  destruct (String.leb (key x) (key y)); [reflexivity |].
  rewrite IH. apply perm_swap.
Qed.

Lemma py_sorted_perm (l : list A) : Permutation (py_sorted key l) l.
Proof.
  induction l as [| x l IH]; simpl; [reflexivity |].
  rewrite insert_by_perm. now constructor.
Qed.





Lemma py_sorted_In (x : A) (l : list A) : In x (py_sorted key l) <-> In x l.
Proof.
  split; apply Permutation_in;
    [apply py_sorted_perm | symmetry; apply py_sorted_perm].
Qed.

End PySorted_properties.

(** ** ConditionsWidget.render: the reference surface *)

Section Reference_properties.




(** C5: every condition of the definitions gets a reference entry, under
    its group, whose fields are the condstr, key_required,
    keys_allowed, key_example, the compare flag, the operator tokens,
    operand_example, help_text and full_description of the kind; a
    kind that is not a compare kind has no operators, an empty
    operand_example and operator_required 'false'. *)
Theorem reference_entry_exposes (definitions : Definitions)
        (groupname : string) (group : dict ConditionKind)
        (condstr : string) (condition : ConditionKind) :
  In (groupname, group) definitions ->
  In (condstr, condition) group ->
  let entry := reference_entry condstr condition in
  (exists g, In g (reference_groups definitions) /\
             GroupEntry.groupname g = groupname /\
             In entry (GroupEntry.conditions g)) /\
  Entry.condstr entry = condstr /\
  Entry.key_required entry =
    (if key_required condition then "true" else "false") /\
  Entry.keys_allowed entry = keys_allowed condition /\
  Entry.key_example entry = key_example condition /\
  Entry.operator_required entry =
    (if is_compare condition then "true" else "false") /\
  (forall c, compare_info condition = Some c ->
     Entry.operators entry = map fst (operators c) /\
     Entry.operand_example entry = operand_example c) /\
  Entry.help_text entry = help_text condition /\
  Entry.description entry = full_description condition /\
  (is_compare condition = false ->
     Entry.operators entry = [] /\
     Entry.operand_example entry = "" /\
     Entry.operator_required entry = "false").
Proof.
  intros Hgroup Hcond entry. split.
  - exists {| GroupEntry.groupname := groupname;
              GroupEntry.conditions := conditions_in_group group |}.
    split; [| split; [reflexivity |]].
    + apply py_sorted_In, in_map_iff. now exists (groupname, group).
    + cbn [GroupEntry.conditions]. apply py_sorted_In, in_map_iff.
      now exists (condstr, condition).
  - subst entry. unfold reference_entry, is_compare. cbn.
    destruct (compare_info condition) as [c |].
    + split_conj; try reflexivity.
      * intros c' Hc'. injection Hc' as <-. split; reflexivity.
      * intros Hno. discriminate Hno.
    + split_conj; try reflexivity.
      * intros c' Hc'. discriminate Hc'.
      * intros _. split_conj; reflexivity.
Qed.

Context `{PyLib} `{Django} `{Engine}.


End Reference_properties.


(** The entry of the compare kind [age] in the example registry. *)
Lemma reference_entry_exposes_witness :
  Entry.operators (reference_entry "age" age) = ["eq"; "gt"] /\
  Entry.operand_example (reference_entry "age" age) = "18".
Proof.
  destruct (reference_entry_exposes example_definitions "cmp"
              [("age", age)] "age" age)
    as (_ & _ & _ & _ & _ & _ & Hcompare & _).
  - simpl. tauto.
  - simpl. tauto.
  - exact (Hcompare _ eq_refl).
Defined.

(** ** Encoding at the storage and display boundary *)

Section Boundary_properties.
Context `{PyLib} `{Django} `{Engine}.
Variable super_dumps_for_display : pyval -> result pyval.
Variable super_get_db_prep_value :
  pyval -> option Connection -> bool -> result pyval.

(** C4: in [get_db_prep_value], [dumps_for_display] and [render] a
    [CondList] is first encoded, and the inherited method then receives
    the encoded form; any other value reaches the inherited method as it
    is, with no call of [encode]. *)
Theorem condlist_encoded_at_boundary
        (field : BaseConditionField) (widget : ConditionsWidget)
        (value : pyval) (connection : option Connection) (prepared : bool)
        (name : string) (attrs : dict json) :
  (forall c, value = VCondList c ->
     let encoded := VJson (encode c) in
     get_db_prep_value super_get_db_prep_value field value connection prepared
       = (super_get_db_prep_value encoded connection prepared,
          [EvEncode c; EvSuper "get_db_prep_value" encoded]) /\
     dumps_for_display super_dumps_for_display field value
       = (super_dumps_for_display encoded,
          [EvEncode c; EvSuper "dumps_for_display" encoded]) /\
     widget_render widget name value attrs
       = (rbind (json_widget_render name encoded attrs)
            (fun textarea =>
               render_to_string template_name_dj110_to_dj111_compat
                 {| textarea := textarea;
                    condition_groups :=
                      reference_groups (widget_condition_definitions widget) |}),
          [EvEncode c; EvSuper "render" encoded])) /\
  (is_CondList value = false ->
     get_db_prep_value super_get_db_prep_value field value connection prepared
       = (super_get_db_prep_value value connection prepared,
          [EvSuper "get_db_prep_value" value]) /\
     dumps_for_display super_dumps_for_display field value
       = (super_dumps_for_display value,
          [EvSuper "dumps_for_display" value]) /\
     widget_render widget name value attrs
       = (rbind (json_widget_render name value attrs)
            (fun textarea =>
               render_to_string template_name_dj110_to_dj111_compat
                 {| textarea := textarea;
                    condition_groups :=
                      reference_groups (widget_condition_definitions widget) |}),
          [EvSuper "render" value])).
Proof.
  split.
  - intros c -> encoded. subst encoded.
    unfold get_db_prep_value, dumps_for_display, widget_render,
      tbind, call, tret.
    split_conj; try reflexivity.
    now destruct (json_widget_render name (VJson (encode c)) attrs).
  - intros Hother.
    unfold get_db_prep_value, dumps_for_display, widget_render,
      tbind, call, tret.
    destruct value as [j | items | c]; try discriminate Hother;
      split_conj; try reflexivity;
      match goal with
      | |- context [json_widget_render ?n ?v ?a] =>
          now destruct (json_widget_render n v a)
      end.
Qed.

End Boundary_properties.

(** Storing the example tree through [ConditionsField]: the tree is
    encoded, and [TextJSONField] serialises the encoded form. *)
Lemma condlist_encoded_at_boundary_witness :
  snd (@conditions_field_get_db_prep_value compact_pylib spec_engine
         example_field (VCondList example_condlist) None false)
    = [EvEncode example_condlist;
       EvSuper "get_db_prep_value" (VJson (spec_encode example_condlist))].
Proof.
  unfold conditions_field_get_db_prep_value.
  destruct (@condlist_encoded_at_boundary compact_pylib plain_django spec_engine
              (fun v => Ok v)
              (fun v _ _ => @text_get_db_prep_value compact_pylib
                              (text example_field) v)
              (base example_field)
              example_widget
              (VCondList example_condlist) None false "conditions" [])
    as (Hcond & _).
  destruct (Hcond example_condlist eq_refl) as (Hstore & _).
  rewrite Hstore. reflexivity.
Defined.

(** ** The codec: invariants and round trip *)

Section Nested_induction.



End Nested_induction.

Section Traversal_properties.
Context {A B : Type}.





End Traversal_properties.

Section Codec_properties.
Variable definitions : Definitions.









End Codec_properties.

Section Round_trip.
Variable definitions : Definitions.
Variable field : BaseConditionField.
Hypothesis field_definitions : field_condition_definitions field = definitions.


End Round_trip.


(** ** The evaluator: short circuit in declared order *)

Section Evaluator_properties.
Variable definitions : Definitions.
Variable context : json.

Let ev := evaluate_node definitions context.

(** The child evaluates to [b]. *)
Let gives (b : bool) (t : TreeNode) : Prop := fst (ev t) = Ok b.

(** The leaves visited while evaluating the children one after another. *)
Let visited (children : list TreeNode) : list TreeNode :=
  flat_map (fun t => snd (ev t)) children.

Lemma eval_and_stops (pre post : list TreeNode) (c : TreeNode) :
  Forall (gives true) pre -> gives false c ->
  eval_and ev (pre ++ c :: post) = (Ok false, visited pre ++ snd (ev c)).
Proof.
  unfold gives, visited. intros Hpre Hc.
  induction Hpre as [| x pre Hx _ IH]; cbn [app eval_and flat_map].
  - unfold tbind. destruct (ev c) as [r tr]. cbn in Hc |- *. subst r.
    cbn. now rewrite app_nil_r.
  - unfold tbind at 1. rewrite IH.
    destruct (ev x) as [r tr]. cbn in Hx |- *. subst r.
    now rewrite app_assoc.
Qed.

Lemma eval_or_stops (pre post : list TreeNode) (c : TreeNode) :
  Forall (gives false) pre -> gives true c ->
  eval_or ev (pre ++ c :: post) = (Ok true, visited pre ++ snd (ev c)).
Proof.
  unfold gives, visited. intros Hpre Hc.
  induction Hpre as [| x pre Hx _ IH]; cbn [app eval_or flat_map].
  - unfold tbind. destruct (ev c) as [r tr]. cbn in Hc |- *. subst r.
    cbn. now rewrite app_nil_r.
  - unfold tbind at 1. rewrite IH.
    destruct (ev x) as [r tr]. cbn in Hx |- *. subst r.
    now rewrite app_assoc.
Qed.

Lemma eval_and_true (children : list TreeNode) :
  fst (eval_and ev children) = Ok true <-> Forall (gives true) children.
Proof.
  unfold gives. induction children as [| x children IH]; cbn [eval_and].
  - split; [constructor | reflexivity].
  - unfold tbind. destruct (ev x) as [[[] | e] tr] eqn:Hx.
    + destruct (eval_and ev children) as [r tr'] eqn:Hrest. cbn in IH |- *.
      rewrite IH. split.
      * intros Hall. constructor; [now rewrite Hx | exact Hall].
      * intros Hall. now inversion Hall.
    + cbn. split; [discriminate |].
      intros Hall. inversion Hall as [| ? ? Hhd _]; subst.
      rewrite Hx in Hhd. discriminate Hhd.
    + cbn. split; [discriminate |].
      intros Hall. inversion Hall as [| ? ? Hhd _]; subst.
      rewrite Hx in Hhd. discriminate Hhd.
Qed.

Lemma eval_or_false (children : list TreeNode) :
  fst (eval_or ev children) = Ok false <-> Forall (gives false) children.
Proof.
  unfold gives. induction children as [| x children IH]; cbn [eval_or].
  - split; [constructor | reflexivity].
  - unfold tbind. destruct (ev x) as [[[] | e] tr] eqn:Hx.
    + cbn. split; [discriminate |].
      intros Hall. inversion Hall as [| ? ? Hhd _]; subst.
      rewrite Hx in Hhd. discriminate Hhd.
    + destruct (eval_or ev children) as [r tr'] eqn:Hrest. cbn in IH |- *.
      rewrite IH. split.
      * intros Hall. constructor; [now rewrite Hx | exact Hall].
      * intros Hall. now inversion Hall.
    + cbn. split; [discriminate |].
      intros Hall. inversion Hall as [| ? ? Hhd _]; subst.
      rewrite Hx in Hhd. discriminate Hhd.
Qed.

(** C7: an AND group whose first false child is [c] returns false, having
    visited the children before [c] and [c] itself and none of the
    children after it, and returns true exactly when every child is true;
    an OR group whose first true child is [c] returns true in the same
    way, and returns false exactly when every child is false. *)
Theorem group_evaluation_short_circuits
        (pre post : list TreeNode) (c : TreeNode) (children : list TreeNode) :
  (Forall (fun t => fst (evaluate_node definitions context t) = Ok true) pre ->
   fst (evaluate_node definitions context c) = Ok false ->
   evaluate_node definitions context (Group AND (pre ++ c :: post))
     = (Ok false,
        flat_map (fun t => snd (evaluate_node definitions context t)) pre
          ++ snd (evaluate_node definitions context c))) /\
  (fst (evaluate_node definitions context (Group AND children)) = Ok true <->
   Forall (fun t => fst (evaluate_node definitions context t) = Ok true)
          children) /\
  (Forall (fun t => fst (evaluate_node definitions context t) = Ok false) pre ->
   fst (evaluate_node definitions context c) = Ok true ->
   evaluate_node definitions context (Group OR (pre ++ c :: post))
     = (Ok true,
        flat_map (fun t => snd (evaluate_node definitions context t)) pre
          ++ snd (evaluate_node definitions context c))) /\
  (fst (evaluate_node definitions context (Group OR children)) = Ok false <->
   Forall (fun t => fst (evaluate_node definitions context t) = Ok false)
          children).
Proof.
  split_conj.
  - apply eval_and_stops.
  - apply eval_and_true.
  - apply eval_or_stops.
  - apply eval_or_false.
Qed.

End Evaluator_properties.

(** An AND group [[false, X]]: [X], which would raise, is not visited. *)
Lemma group_evaluation_short_circuits_witness :
  evaluate_node example_definitions example_context
    (Group AND [age_over_30; unknown_node])
    = (Ok false, [age_over_30]).
Proof.
  destruct (group_evaluation_short_circuits example_definitions
              example_context [] [unknown_node] age_over_30 [])
    as (Hand & _).
  apply Hand; [constructor | reflexivity].
Defined.

(** ** The end-to-end examples of the specification *)

Example decode_or_group_of_always_true :
  spec_decode or_group_json example_definitions = Ok example_condlist /\
  fst (evaluate example_condlist example_definitions example_context) = Ok true.
Proof. split; reflexivity. Qed.

Example decode_unknown_condition :
  spec_decode unknown_leaf example_definitions
    = Raise (InvalidConditionError "unknown condition unknown_cond").
Proof. reflexivity. Qed.

Example decode_age_with_and_without_operator :
  spec_decode (age_leaf_json true) example_definitions
    = Ok (mkCondList (Leaf "age" None (Some "gt") (Some (JNum 18)))) /\
  spec_decode (age_leaf_json false) example_definitions
    = Raise (InvalidConditionError "missing operator for condition age").
Proof. split; reflexivity. Qed.

Example decode_empty_group :
  spec_decode (VJson (JObj [("op", JStr "and"); ("conditions", JArr [])]))
              example_definitions
    = Raise (InvalidConditionError "empty group").
Proof. reflexivity. Qed.

Example or_group_stops_at_first_true :
  evaluate_node example_definitions example_context
    (Group OR [Leaf "always_true" None None None; unknown_node])
    = (Ok true, [Leaf "always_true" None None None]).
Proof. reflexivity. Qed.

(** ** TextJSONField.validate *)

Section Validate_properties.
Context `{PyLib} `{PyText}.
Variable self : FieldAttrs.

Lemma get_prep_value_None (value : pyval) :
  is_None value = true ->
  exists p, get_prep_value (field self) value = Ok p.
Proof.
  unfold get_prep_value. intros ->.
  destruct (negb (null (field self)) && blank (field self)); eauto.
Qed.

(** What a normal return of [validate] means. *)
Lemma validate_ok_inv (value r : pyval) :
  validate self value = Ok r ->
  r = VNone /\
  (is_None value = true -> null (field self) = true) /\
  exists p, get_prep_value (field self) value = Ok p.
Proof.
  unfold validate.
  destruct (null (field self)), (is_None value); cbn [negb andb];
    try discriminate;
    (destruct (get_prep_value (field self) value) as [p | e];
     [ intros [= <-]; split_conj; [reflexivity | auto | eauto]
     | destruct e; try discriminate;
       destruct (py_format (error_messages_invalid self) value);
       discriminate ]).
Qed.

(** [validate] returns normally exactly for the values
    [get_db_prep_value] can store, with [None] only on a nullable field. *)
Theorem validate_accepts_iff (value : pyval) :
  validate self value = Ok VNone <->
  (is_None value = true -> null (field self) = true) /\
  exists p, text_get_db_prep_value (field self) value = Ok p.
Proof.
  unfold text_get_db_prep_value. split.
  - intros Hok. now apply validate_ok_inv in Hok.
  - intros (Hnull & p & Hp). unfold validate. rewrite Hp.
    destruct (is_None value); [rewrite Hnull by reflexivity |];
      destruct (null (field self)); reflexivity.
Qed.

(** A [ValueError] raised while serialising becomes a [ValidationError]
    that carries the formatted [invalid] message; when formatting the
    message raises, that exception is the one [validate] raises; every
    other exception of the serialisation leaves [validate] unchanged. *)
Theorem validate_error_kinds (value : pyval) :
  (forall m msg,
     get_prep_value (field self) value = Raise (ValueError m) ->
     py_format (error_messages_invalid self) value = Ok msg ->
     validate self value = Raise (ValidationError msg)) /\
  (forall m e,
     get_prep_value (field self) value = Raise (ValueError m) ->
     py_format (error_messages_invalid self) value = Raise e ->
     validate self value = Raise e) /\
  (forall e,
     get_prep_value (field self) value = Raise e ->
     (forall m, e <> ValueError m) ->
     validate self value = Raise e).
Proof.
  assert (Hguard : forall e, get_prep_value (field self) value = Raise e ->
                   negb (null (field self)) && is_None value = false).
  { intros e He. destruct (is_None value) eqn:Hnone.
    - destruct (get_prep_value_None value Hnone) as (p & Hp). congruence.
    - apply andb_false_r. }
  unfold validate. split_conj.
  - intros m msg Hprep Hformat.
    now rewrite (Hguard _ Hprep), Hprep, Hformat.
  - intros m e Hprep Hformat.
    now rewrite (Hguard _ Hprep), Hprep, Hformat.
  - intros e Hprep Hother. rewrite (Hguard _ Hprep), Hprep.
    destruct e; try reflexivity. now destruct (Hother msg).
Qed.

End Validate_properties.

(** A boolean is refused by the encoder: [validate] reports it with the
    formatted message; a tuple cannot fill the one [%s] of the message,
    and the [TypeError] of the formatting is what comes out. *)
Lemma validate_error_kinds_witness :
  @validate no_bool_pylib compact_pytext example_attrs (VJson (JBool true))
    = Raise (ValidationError "'True' is not a valid JSON string.") /\
  @validate no_bool_pylib compact_pytext example_attrs
     (VTuple [JBool true; JBool false])
    = Raise (TypeError "not all arguments converted during string formatting").
Proof.
  split.
  - destruct (@validate_error_kinds no_bool_pylib compact_pytext example_attrs
                (VJson (JBool true))) as (Hwrap & _ & _).
    apply (Hwrap "booleans are not accepted"); reflexivity.
  - destruct (@validate_error_kinds no_bool_pylib compact_pytext example_attrs
                (VTuple [JBool true; JBool false])) as (_ & Hformat & _).
    apply (Hformat "booleans are not accepted"); reflexivity.
Defined.

(** ** Storing and loading through TextJSONField *)

Section Store_load_properties.
Context `{PyLib} `{PyText}.
Variable self : FieldAttrs.

(** What [get_db_prep_value] stores, [from_db_value] loads back: a value
    other than [None] comes back whenever [json.loads] reads what
    [json.dumps] wrote for it, and [None] comes back as [None] on a
    nullable field. *)
Theorem store_then_load (value : pyval) :
  (forall text,
     is_None value = false ->
     json_dumps (encoder_kwargs (field self)) value = Ok text ->
     json_loads (decoder_kwargs self) text = Ok value ->
     rbind (text_get_db_prep_value (field self) value) (from_db_value self)
       = Ok value) /\
  (is_None value = true -> null (field self) = true ->
     rbind (text_get_db_prep_value (field self) value) (from_db_value self)
       = Ok VNone).
Proof.
  unfold text_get_db_prep_value, get_prep_value, from_db_value. split.
  - intros text Hnone Hdumps Hloads. rewrite Hnone, Hdumps. cbn.
    exact Hloads.
  - intros -> ->. reflexivity.
Qed.

(** On a field that is blank and not nullable, [None] is stored as the
    empty string, and loading it hands the empty string to
    [json.loads]. *)
Theorem none_on_blank_field_loads_empty_text :
  null (field self) = false ->
  blank (field self) = true ->
  text_get_db_prep_value (field self) VNone = Ok (VStr "") /\
  rbind (text_get_db_prep_value (field self) VNone) (from_db_value self)
    = json_loads (decoder_kwargs self) "".
Proof.
  unfold text_get_db_prep_value, get_prep_value, from_db_value.
  intros -> ->. split; reflexivity.
Qed.

(** When the field has a default, what [get_default] returns came out of
    [json.loads]; the inherited [get_default] is not consulted, and a
    [str] default is read as JSON text. *)
Theorem get_default_is_parsed (super_get_default : result pyval) (r : pyval) :
  default_attr self <> NOT_PROVIDED ->
  get_default super_get_default self = Ok r ->
  (exists text, json_loads (decoder_kwargs self) text = Ok r) /\
  (forall other, get_default other self = Ok r) /\
  (forall text, default_attr self = DefaultValue (VStr text) ->
     json_loads (decoder_kwargs self) text = Ok r).
Proof.
  unfold get_default. intros Hdefault.
  destruct (default_attr self) as [| v | returns]; [congruence | |].
  - cbn [rbind]. intros Hr. split_conj.
    + destruct v as [[] | |]; eauto;
        destruct (json_dumps _ _) as [text |]; try discriminate; cbn in Hr; eauto.
    + intros other. exact Hr.
    + intros text [= ->]. exact Hr.
  - destruct returns as [v |]; [| discriminate]. cbn [rbind]. intros Hr.
    split_conj.
    + destruct v as [[] | |]; eauto;
        destruct (json_dumps _ _) as [text |]; try discriminate; cbn in Hr; eauto.
    + intros other. exact Hr.
    + intros text Hstr. discriminate Hstr.
Qed.

End Store_load_properties.

(** A dict written by [get_db_prep_value] and read by [from_db_value]. *)
Lemma store_then_load_witness :
  let value := VJson (JObj [("condition", JStr "always_true")]) in
  rbind (@text_get_db_prep_value compact_pylib (field example_attrs) value)
        (@from_db_value compact_pytext example_attrs)
    = Ok value.
Proof.
  intros value.
  destruct (@store_then_load compact_pylib compact_pytext example_attrs value)
    as (Hvalue & _).
  apply (Hvalue (dumps_compact (JObj [("condition", JStr "always_true")])));
    reflexivity.
Defined.

(** The example field is blank and not nullable: the [None] it stores is
    read back as a [ValueError] by a [json.loads] that refuses the empty
    text. *)
Lemma none_on_blank_field_loads_empty_text_witness :
  rbind (@text_get_db_prep_value compact_pylib (field example_attrs) VNone)
        (@from_db_value compact_pytext example_attrs)
    = Raise (ValueError "Expecting value").
Proof.
  destruct (@none_on_blank_field_loads_empty_text compact_pylib compact_pytext
              example_attrs eq_refl eq_refl) as (_ & Hload).
  rewrite Hload. reflexivity.
Defined.

(** The default of the example field is the callable [dict]. *)
Lemma get_default_is_parsed_witness :
  exists text,
    @json_loads compact_pytext (decoder_kwargs example_attrs) text
      = Ok (VJson (JObj [])).
Proof.
  apply (@get_default_is_parsed compact_pylib compact_pytext example_attrs
           (Ok VNone) (VJson (JObj []))).
  - discriminate.
  - reflexivity.
Defined.

(** ** TextJSONField.__init__ *)

Section Init_properties.
Context `{PyLib} `{PyText}.
Variable resolve_object_path : string -> string.
Variable settings : Settings.
Variables message_null message_invalid : string.
Variable super_get_default : result pyval.

Let init := text_json_field_init resolve_object_path settings
                                 message_null message_invalid
                                 super_get_default.

Lemma init_ok_inv (kwargs : FieldKwargs) (self : FieldAttrs) :
  init kwargs = Ok self ->
  self = init_attrs resolve_object_path settings message_null message_invalid
                    kwargs /\
  exists d, get_default super_get_default self = Ok d /\
            validate self d = Ok VNone.
Proof.
  unfold init, text_json_field_init.
  set (attrs := init_attrs _ _ _ _ kwargs).
  destruct (get_default super_get_default attrs) as [d |] eqn:Hd;
    [| discriminate].
  cbn [rbind].
  destruct (validate attrs d) as [r |] eqn:Hv; [| discriminate].
  cbn [rbind]. intros [= <-]. split; [reflexivity |].
  exists d. split; [exact Hd |].
  now destruct (validate_ok_inv _ _ _ Hv) as (-> & _).
Qed.

(** A field constructed without [null=True] has for default the one
    passed, else the callable [dict].  Unless [NOT_PROVIDED] itself was
    passed, the field has a default and its [get_default] does not depend
    on the inherited one; without a passed default it is the JSON round
    trip of the empty dict.  When [NOT_PROVIDED] was passed the field has
    no default, and [get_default] is the inherited one. *)
Theorem init_non_null_has_default (kwargs : FieldKwargs) (self : FieldAttrs) :
  init kwargs = Ok self ->
  kwarg_or (kw_null kwargs) false = false ->
  null (field self) = false /\
  default_attr self
    = kwarg_or (kw_default kwargs) (DefaultCallable (Ok (VJson (JObj [])))) /\
  (kw_default kwargs <> Some NOT_PROVIDED ->
     default_attr self <> NOT_PROVIDED /\
     forall other, get_default other self = get_default super_get_default self) /\
  (kw_default kwargs = None ->
     get_default super_get_default self
       = rbind (json_dumps (encoder_kwargs (field self)) (VJson (JObj [])))
               (json_loads (decoder_kwargs self))) /\
  (kw_default kwargs = Some NOT_PROVIDED ->
     default_attr self = NOT_PROVIDED /\
     forall other, get_default other self = other).
Proof.
  intros Hinit Hnull.
  destruct (init_ok_inv _ _ Hinit) as (-> & _).
  assert (Hdefault :
            default_attr (init_attrs resolve_object_path settings message_null
                                     message_invalid kwargs)
            = kwarg_or (kw_default kwargs)
                       (DefaultCallable (Ok (VJson (JObj []))))).
  { cbn. unfold init_default. now rewrite Hnull. }
  split_conj.
  - exact Hnull.
  - exact Hdefault.
  - intros Hgiven. split.
    + rewrite Hdefault. destruct (kw_default kwargs) as [[] |]; cbn; congruence.
    + intros other. unfold get_default. rewrite Hdefault.
      destruct (kw_default kwargs) as [[] |]; cbn; congruence.
  - intros Hnone. unfold get_default. rewrite Hdefault, Hnone. reflexivity.
  - intros Hgiven. split.
    + now rewrite Hdefault, Hgiven.
    + intros other. unfold get_default. now rewrite Hdefault, Hgiven.
Qed.

(** A constructed field has a default that [get_default] returns, that
    [get_prep_value] can serialise, and that is [None] only when the
    field is nullable. *)
Theorem init_validates_default (kwargs : FieldKwargs) (self : FieldAttrs) :
  init kwargs = Ok self ->
  exists d,
    get_default super_get_default self = Ok d /\
    (is_None d = true -> null (field self) = true) /\
    exists p, get_prep_value (field self) d = Ok p.
Proof.
  intros Hinit. destruct (init_ok_inv _ _ Hinit) as (_ & d & Hd & Hv).
  exists d. split; [exact Hd |].
  now destruct (validate_ok_inv _ _ _ Hv) as (_ & Hnull & Hprep).
Qed.

End Init_properties.

(** The field built from no keyword at all, and the field built with
    [default=NOT_PROVIDED] over an inherited default of [None]. *)
Lemma init_non_null_has_default_witness :
  @get_default compact_pylib compact_pytext (Ok VNone)
     (example_init_attrs no_kwargs)
    = Ok (VJson (JObj [])) /\
  default_attr (example_init_attrs not_provided_kwargs) = NOT_PROVIDED.
Proof.
  split.
  - destruct (@init_non_null_has_default compact_pylib compact_pytext
                (fun path => path) no_settings "This field cannot be null."
                "'%s' is not a valid JSON string." (Ok VNone)
                no_kwargs (example_init_attrs no_kwargs) eq_refl eq_refl)
      as (_ & _ & _ & Hdict & _).
    rewrite (Hdict eq_refl). reflexivity.
  - destruct (@init_non_null_has_default compact_pylib compact_pytext
                (fun path => path) no_settings "This field cannot be null."
                "'%s' is not a valid JSON string." (Ok (VJson (JObj [])))
                not_provided_kwargs (example_init_attrs not_provided_kwargs)
                eq_refl eq_refl)
      as (_ & _ & _ & _ & Hnone).
    now destruct (Hnone eq_refl).
Defined.

(** The field built with [default=None] and no [null=True] is refused;
    with [null=True] it is built, and its default is [None]. *)
Lemma init_validates_default_witness :
  example_init (default_none_kwargs None)
    = Raise (ValidationError "This field cannot be null.") /\
  exists d,
    @get_default compact_pylib compact_pytext (Ok VNone)
       (example_init_attrs (default_none_kwargs (Some true))) = Ok d /\
    (is_None d = true ->
     null (field (example_init_attrs (default_none_kwargs (Some true)))) = true).
Proof.
  split; [reflexivity |].
  destruct (@init_validates_default compact_pylib compact_pytext
              (fun path => path) no_settings "This field cannot be null."
              "'%s' is not a valid JSON string." (Ok VNone)
              (default_none_kwargs (Some true))
              (example_init_attrs (default_none_kwargs (Some true))) eq_refl)
    as (d & Hd & Hnull & _).
  exists d. split; [exact Hd | exact Hnull].
Defined.

(** ** BaseConditionField.pre_init *)

Section Pre_init_properties.
Context `{Engine}.
Variable super_pre_init : pyval -> pyval -> result pyval.
Variable self : BaseConditionField.

Let definitions := field_condition_definitions self.

(** [pre_init], by the outcome of the inherited [pre_init] and of
    [decode]. *)
Lemma pre_init_unfold (value obj : pyval) :
  pre_init super_pre_init self value obj =
    match super_pre_init value obj with
    | Raise e => (Raise e, [EvSuper "pre_init" value])
    | Ok loaded =>
        if is_dict loaded then
          (match decode loaded definitions with
           | Ok c => Ok (VCondList c)
           | Raise e => Raise e
           end,
           [EvSuper "pre_init" value; EvDecode loaded])
        else (Ok loaded, [EvSuper "pre_init" value])
    end.
Proof.
  unfold pre_init, tbind, call, tret, definitions.
  destruct (super_pre_init value obj) as [loaded | e]; [| reflexivity].
  destruct (is_dict loaded); [| reflexivity].
  now destruct (decode loaded (field_condition_definitions self)).
Qed.

(** [pre_init] never returns a dict: what it returns is a [CondList] it
    decoded, or the value the inherited [pre_init] gave when that was not
    a dict; [decode] is called exactly when it was one. *)
Theorem pre_init_never_returns_dict (value obj : pyval) :
  (forall r, fst (pre_init super_pre_init self value obj) = Ok r ->
     is_dict r = false /\
     ((exists loaded c, super_pre_init value obj = Ok loaded /\
                        decode loaded definitions = Ok c /\
                        r = VCondList c) \/
      super_pre_init value obj = Ok r)) /\
  (existsb is_EvDecode (snd (pre_init super_pre_init self value obj)) = true
   <-> exists loaded, super_pre_init value obj = Ok loaded /\
                      is_dict loaded = true).
Proof.
  rewrite pre_init_unfold.
  destruct (super_pre_init value obj) as [loaded | e].
  - destruct (is_dict loaded) eqn:Hdict.
    + split.
      * destruct (decode loaded definitions) as [c | e] eqn:Hdecode;
          cbn; intros r Hr; [| discriminate Hr].
        injection Hr as <-. split; [reflexivity |].
        left. now exists loaded, c.
      * split; [| reflexivity]. intros _. now exists loaded.
    + split.
      * cbn. intros r [= <-]. split; [exact Hdict | now right].
      * split; [discriminate |].
        intros (loaded' & [= <-] & Hd). congruence.
  - split.
    + cbn. intros r Hr. discriminate Hr.
    + split; [discriminate |]. intros (loaded & Hl & _). discriminate Hl.
Qed.

(** [pre_init] wraps nothing and adds no exception of its own: what it
    raises is what the inherited [pre_init] raised, in which case [decode]
    is not called, or what [decode] raised on the dict the inherited
    [pre_init] returned. *)
Theorem pre_init_raises_unwrapped (value obj : pyval) (e : exn) :
  (fst (pre_init super_pre_init self value obj) = Raise e <->
   super_pre_init value obj = Raise e \/
   exists loaded, super_pre_init value obj = Ok loaded /\
                  is_dict loaded = true /\
                  decode loaded definitions = Raise e) /\
  (super_pre_init value obj = Raise e ->
   pre_init super_pre_init self value obj
     = (Raise e, [EvSuper "pre_init" value])).
Proof.
  rewrite pre_init_unfold. split.
  - destruct (super_pre_init value obj) as [loaded | e'].
    + destruct (is_dict loaded) eqn:Hdict; cbn [fst].
      * split.
        -- intros Hraise. right. exists loaded.
           split; [reflexivity | split; [exact Hdict |]].
           destruct (decode loaded definitions); [discriminate Hraise |].
           now injection Hraise as ->.
        -- intros [Hsuper | (loaded' & [= <-] & _ & ->)];
             [discriminate Hsuper | reflexivity].
      * split; [discriminate |].
        intros [Hsuper | (loaded' & [= <-] & Hd & _)];
          [discriminate Hsuper | congruence].
    + cbn [fst]. split.
      * intros Hraise. now left.
      * intros [Hsuper | (loaded & Hl & _)];
          [exact Hsuper | discriminate Hl].
  - intros ->. reflexivity.
Qed.

End Pre_init_properties.

(** A parent class without [pre_init]: the [AttributeError] of the
    inherited call is what [pre_init] raises, before any [decode]. *)
Lemma pre_init_raises_unwrapped_witness :
  pre_init (fun _ _ => Raise (AttributeError
                                "'super' object has no attribute 'pre_init'"))
           (base example_field) or_group_json VNone
    = (Raise (AttributeError "'super' object has no attribute 'pre_init'"),
       [EvSuper "pre_init" or_group_json]).
Proof.
  destruct (@pre_init_raises_unwrapped spec_engine
              (fun _ _ => Raise (AttributeError
                                   "'super' object has no attribute 'pre_init'"))
              (base example_field) or_group_json VNone
              (AttributeError "'super' object has no attribute 'pre_init'"))
    as (_ & Hsuper).
  apply Hsuper. reflexivity.
Defined.

(** ** Constructors and formfield *)

Section Dict_properties.
Context {A : Type}.

Lemma dict_get_set_same (k : string) (v : A) (d : dict A) :
  dict_get k (dict_set k v d) = Some v.
Proof.
  induction d as [| [k' v'] d IH]; simpl.
  - now rewrite String.eqb_refl.
  - destruct (String.eqb k k') eqn:E; simpl.
    + now rewrite String.eqb_refl.
    + now rewrite E.
Qed.

Lemma dict_get_set_other (k k' : string) (v : A) (d : dict A) :
  k <> k' -> dict_get k (dict_set k' v d) = dict_get k d.
Proof.
  intros Hne. apply String.eqb_neq in Hne.
  induction d as [| [k'' v''] d IH]; simpl.
  - now rewrite Hne.
  - destruct (String.eqb_spec k' k'') as [<- | Hne']; simpl.
    + now rewrite Hne.
    + now rewrite IH.
Qed.

Lemma dict_get_absent (k : string) (d : dict A) :
  ~ In k (map fst d) -> dict_get k d = None.
Proof.
  induction d as [| [k' v'] d IH]; simpl; [reflexivity |].
  intros Hnot. destruct (String.eqb_spec k k') as [-> | _].
  - exfalso. apply Hnot. now left.
  - apply IH. intros Hin. apply Hnot. now right.
Qed.

(** After [d.update(other)] a key reads as in [other] when [other] has
    it, and as in [d] otherwise. *)
Lemma dict_get_update (k : string) (d other : dict A) :
  NoDup (map fst other) ->
  dict_get k (dict_update d other) =
    match dict_get k other with
    | Some v => Some v
    | None => dict_get k d
    end.
Proof.
  unfold dict_update. revert d.
  induction other as [| [k' v'] other IH]; intros d Hnodup; simpl;
    [reflexivity |].
  inversion Hnodup as [| ? ? Hfresh Hrest]; subst.
  rewrite (IH _ Hrest).
  destruct (String.eqb_spec k k') as [-> | Hne].
  - cbn [fst snd]. rewrite (dict_get_absent _ _ Hfresh).
    apply dict_get_set_same.
  - cbn [fst snd]. destruct (dict_get k other); [reflexivity |].
    now apply dict_get_set_other.
Qed.

End Dict_properties.

Section Constructor_properties.

(** The [attrs] that [ConditionsWidget.__init__] hands on always have
    [cols]: the caller's when the caller set it, in which case the attrs
    are handed on as they came, and 50 otherwise; every other attribute
    reads as the caller gave it. *)
Theorem widget_init_cols (kwargs : WidgetKwargs) :
  let given := kwarg_or (wk_attrs kwargs) [] in
  let attrs := widget_attrs (conditions_widget_init kwargs) in
  (forall v, dict_get "cols" given = Some v -> attrs = given) /\
  (dict_get "cols" given = None -> dict_get "cols" attrs = Some (JNum 50)) /\
  (forall k, k <> "cols" -> dict_get k attrs = dict_get k given) /\
  widget_condition_definitions (widget (conditions_widget_init kwargs))
    = kwarg_or (wk_condition_definitions kwargs) [].
Proof.
  intros given attrs. subst attrs. unfold conditions_widget_init.
  fold given. cbn [widget_attrs widget widget_condition_definitions].
  unfold dict_has. split_conj.
  - intros v Hv. now rewrite Hv.
  - intros Hnone. rewrite Hnone. apply dict_get_set_same.
  - intros k Hk. destruct (dict_get "cols" given); [reflexivity |].
    now apply dict_get_set_other.
  - reflexivity.
Qed.

(** The form field that [formfield] builds validates against the
    definitions of the model field, whatever [condition_definitions] the
    caller passed; without a [widget] keyword its widget is a
    [ConditionsWidget] on the same definitions with [cols] 50, and a
    widget the caller passed is kept as it is. *)
Theorem formfield_binds_definitions (self : BaseConditionField)
        (kwargs : FormKwargs) :
  let built := base_formfield self kwargs in
  form_condition_definitions (form built) = field_condition_definitions self /\
  (fk_widget kwargs = None ->
     form_widget built =
       ConditionsWidgetArg
         {| widget := {| widget_condition_definitions :=
                           field_condition_definitions self |};
            widget_attrs := [("cols", JNum 50)] |}) /\
  (forall w, fk_widget kwargs = Some w -> form_widget built = w).
Proof.
  intros built. subst built.
  unfold base_formfield, conditions_form_field_init. cbn. split_conj.
  - reflexivity.
  - intros ->. reflexivity.
  - intros w ->. reflexivity.
Qed.

(** The keywords [TextJSONField.formfield] hands on: every keyword of the
    caller as given, [form_class] and [widget] defaulting to
    [JSONFormField] and [JSONWidget], and nothing else. *)
Theorem text_formfield_kwargs_lookup (kwargs : dict kwval) (k : string) :
  NoDup (map fst kwargs) ->
  dict_get k (text_formfield_kwargs kwargs) =
    match dict_get k kwargs with
    | Some v => Some v
    | None =>
        if String.eqb k "form_class" then Some (KClass "JSONFormField")
        else if String.eqb k "widget" then Some (KClass "JSONWidget")
        else None
    end.
Proof.
  intros Hnodup. unfold text_formfield_kwargs.
  rewrite (dict_get_update _ _ _ Hnodup). reflexivity.
Qed.

End Constructor_properties.

(** A caller that sets [rows] only, and a caller that sets [cols]. *)
Lemma widget_init_cols_witness :
  widget_attrs (conditions_widget_init
                  {| wk_condition_definitions := None;
                     wk_attrs := Some [("cols", JNum 80)] |})
    = [("cols", JNum 80)] /\
  dict_get "cols"
    (widget_attrs (conditions_widget_init
                     {| wk_condition_definitions := None;
                        wk_attrs := Some [("rows", JNum 3)] |}))
    = Some (JNum 50).
Proof.
  split.
  - destruct (widget_init_cols {| wk_condition_definitions := None;
                                  wk_attrs := Some [("cols", JNum 80)] |})
      as (Hkept & _).
    apply (Hkept (JNum 80)). reflexivity.
  - destruct (widget_init_cols {| wk_condition_definitions := None;
                                  wk_attrs := Some [("rows", JNum 3)] |})
      as (_ & Hset & _).
    apply Hset. reflexivity.
Defined.

(** A caller that passes its own widget and a [required] flag. *)
Lemma text_formfield_kwargs_lookup_witness :
  let kwargs := [("widget", KClass "Textarea");
                 ("required", KValue (VJson (JBool false)))] in
  dict_get "widget" (text_formfield_kwargs kwargs) = Some (KClass "Textarea") /\
  dict_get "form_class" (text_formfield_kwargs kwargs)
    = Some (KClass "JSONFormField").
Proof.
  intros kwargs.
  assert (Hnodup : NoDup (map fst kwargs)).
  { repeat constructor; simpl; intuition discriminate. }
  split.
  - rewrite (text_formfield_kwargs_lookup kwargs "widget" Hnodup). reflexivity.
  - rewrite (text_formfield_kwargs_lookup kwargs "form_class" Hnodup).
    reflexivity.
Defined.

(** ** Lookups and rendering of prepared values *)

Section Slice_properties.

Lemma length_app (s t : string) :
  String.length (s ++ t)%string = String.length s + String.length t.
Proof. induction s as [| c s IH]; simpl; [reflexivity | now rewrite IH]. Qed.

Lemma substring_0_app (s t : string) :
  substring 0 (String.length s) (s ++ t)%string = s.
Proof.
  induction s as [| c s IH]; simpl.
  - now destruct t.
  - now rewrite IH.
Qed.

(** [s[1:-1]] drops the enclosing pair of characters. *)
Lemma slice_1_m1_enclosed (a b : ascii) (body : string) :
  slice_1_m1 (String a (body ++ String b EmptyString)) = body.
Proof.
  unfold slice_1_m1. cbn [String.length substring].
  rewrite length_app. cbn [String.length].
  replace (S (String.length body + 1) - 2) with (String.length body) by lia.
  apply substring_0_app.
Qed.

End Slice_properties.

Section Prepared_value_properties.
Context `{PyLib} `{Django}.
Variable self : TextJSONField.

(** A contains or icontains lookup on a dict looks for the members of
    its serialisation: the text [json.dumps] wrote, without the braces
    around it. *)
Theorem contains_lookup_on_dict_strips_braces
        (lookup_type : string) (fields : dict json) (body : string) :
  In lookup_type ["contains"; "icontains"] ->
  json_dumps (encoder_kwargs self) (VJson (JObj fields))
    = Ok ("{" ++ body ++ "}")%string ->
  get_prep_lookup self lookup_type (VJson (JObj fields)) = Ok (VStr body).
Proof.
  intros Hin Hdumps. unfold get_prep_lookup.
  assert (H1 : str_in lookup_type ["exact"; "iexact"; "in"; "isnull"] = false).
  { simpl in Hin. destruct Hin as [<- | [<- | []]]; reflexivity. }
  apply str_in_In in Hin. rewrite H1, Hin.
  cbn [is_list_or_tuple is_dict].
  unfold get_prep_value. cbn [is_None]. rewrite Hdumps.
  cbn [rbind subscript_1_m1].
  change ("{" ++ body ++ "}")%string
    with (String "{" (body ++ String "}" EmptyString)).
  now rewrite slice_1_m1_enclosed.
Qed.

(** What [get_prep_value] returns is [None] or a [str], and
    [JSONWidget.render] shows it as it is: [None] as the empty text, a
    [str] without serialising it again. *)
Theorem prepared_value_rendered_verbatim
        (value prepared : pyval) (name : string) (attrs : dict json) :
  get_prep_value self value = Ok prepared ->
  (is_None prepared = true \/ is_str prepared = true) /\
  json_widget_render name prepared attrs
    = textarea_render name (if is_None prepared then VStr "" else prepared)
                      attrs.
Proof.
  unfold get_prep_value.
  destruct (is_None value).
  - destruct (negb (null self) && blank self); intros [= <-];
      (split; [auto | reflexivity]).
  - destruct (json_dumps (encoder_kwargs self) value) as [text |];
      [| discriminate].
    cbn [rbind]. intros [= <-]. split; [now right | reflexivity].
Qed.

End Prepared_value_properties.

(** A contains lookup on a dict of two members. *)
Lemma contains_lookup_on_dict_strips_braces_witness :
  @get_prep_lookup compact_pylib (text example_field) "contains"
     (VJson (JObj [("a", JNum 1); ("b", JNull)]))
    = Ok (VStr (dquote ++ "a" ++ dquote ++ ": 1, "
                  ++ dquote ++ "b" ++ dquote ++ ": null")).
Proof.
  apply (@contains_lookup_on_dict_strips_braces compact_pylib
           (text example_field) "contains" [("a", JNum 1); ("b", JNull)]).
  - simpl. tauto.
  - reflexivity.
Defined.

(** The text stored for a dict, shown in the text area as stored. *)
Lemma prepared_value_rendered_verbatim_witness :
  let stored := dumps_compact (JObj [("condition", JStr "always_true")]) in
  @json_widget_render compact_pylib plain_django "conditions" (VStr stored) []
    = @textarea_render plain_django "conditions" (VStr stored) [].
Proof.
  intros stored.
  apply (@prepared_value_rendered_verbatim compact_pylib plain_django
           (text example_field)
           (VJson (JObj [("condition", JStr "always_true")]))
           (VStr stored) "conditions" []).
  reflexivity.
Defined.

(** ** ConditionsField: validation, storage and loading together *)

Section ConditionsField_properties.
Context `{PyLib} `{PyText} `{Engine}.
Variable self : ConditionsField.
Variable attrs : FieldAttrs.
Hypothesis attrs_of_self : field attrs = text self.

(** [validate] is the inherited one and hands a [CondList] to
    [json.dumps] as it is, while [get_db_prep_value] hands over its
    encoding: a [CondList] that [json.dumps] cannot serialise fails
    [validate] with that [TypeError] although it can be stored (its
    encoding being a value other than [None] that [json.dumps] writes). *)
Theorem validate_does_not_encode
        (c : CondList) (m stored : string)
        (connection : option Connection) (prepared : bool) :
  json_dumps (encoder_kwargs (text self)) (VCondList c) = Raise (TypeError m) ->
  is_None (VJson (encode c)) = false ->
  json_dumps (encoder_kwargs (text self)) (VJson (encode c)) = Ok stored ->
  validate attrs (VCondList c) = Raise (TypeError m) /\
  fst (conditions_field_get_db_prep_value self (VCondList c)
                                          connection prepared)
    = Ok (VStr stored).
Proof.
  intros Hraw Hnone Hencoded. split.
  - unfold validate, get_prep_value. rewrite attrs_of_self.
    cbn [is_None]. rewrite andb_false_r, Hraw. reflexivity.
  - unfold conditions_field_get_db_prep_value, get_db_prep_value,
      text_get_db_prep_value, get_prep_value, tbind, call.
    cbn [fst]. now rewrite Hnone, Hencoded.
Qed.

(** A [CondList] stored by [get_db_prep_value] is read back by
    [from_db_value] as its encoding, when the encoding is not [None] and
    [json.loads] reads what [json.dumps] wrote for it. *)
Theorem conditions_field_stored_condlist_loads_as_encoding
        (c : CondList) (stored : string)
        (connection : option Connection) (prepared : bool) :
  is_None (VJson (encode c)) = false ->
  json_dumps (encoder_kwargs (text self)) (VJson (encode c)) = Ok stored ->
  json_loads (decoder_kwargs attrs) stored = Ok (VJson (encode c)) ->
  fst (conditions_field_get_db_prep_value self (VCondList c)
                                          connection prepared)
    = Ok (VStr stored) /\
  rbind (fst (conditions_field_get_db_prep_value self (VCondList c)
                                                 connection prepared))
        (from_db_value attrs)
    = Ok (VJson (encode c)).
Proof.
  intros Hnone Hdumps Hloads.
  assert (Hstore : fst (conditions_field_get_db_prep_value
                          self (VCondList c) connection prepared)
                   = Ok (VStr stored)).
  { unfold conditions_field_get_db_prep_value, get_db_prep_value,
      text_get_db_prep_value, get_prep_value, tbind, call.
    cbn [fst]. now rewrite Hnone, Hdumps. }
  split; [exact Hstore |].
  rewrite Hstore. cbn [rbind]. unfold from_db_value. cbn [is_None].
  exact Hloads.
Qed.

End ConditionsField_properties.

(** The example tree: refused by [validate] under a [json.dumps] that
    does not know [CondList], and stored as the text of its encoding. *)
Lemma validate_does_not_encode_witness :
  @validate compact_pylib compact_pytext example_attrs
     (VCondList example_condlist)
    = Raise (TypeError "Object of type CondList is not JSON serializable") /\
  fst (@conditions_field_get_db_prep_value compact_pylib spec_engine
         example_field (VCondList example_condlist) None false)
    = Ok (VStr (dumps_compact (spec_encode example_condlist))).
Proof.
  apply (@validate_does_not_encode compact_pylib compact_pytext spec_engine
           example_field example_attrs eq_refl example_condlist);
    reflexivity.
Defined.

(** The example tree, stored and read back. *)
Lemma conditions_field_stored_condlist_loads_as_encoding_witness :
  rbind (fst (@conditions_field_get_db_prep_value compact_pylib spec_engine
                example_field (VCondList example_condlist) None false))
        (@from_db_value compact_pytext example_attrs)
    = Ok (VJson (spec_encode example_condlist)).
Proof.
  apply (@conditions_field_stored_condlist_loads_as_encoding compact_pylib
           compact_pytext spec_engine example_field example_attrs
           example_condlist
           (dumps_compact (spec_encode example_condlist)) None false);
    reflexivity.
Defined.

Section Constructed_field_properties.
Context `{PyLib} `{PyText}.
Variable resolve_object_path : string -> string.
Variable settings : Settings.
Variables message_null message_invalid : string.
Variable super_get_default : result pyval.

(** The definitions passed to [ConditionsField] (the empty registry when
    none is passed) are the ones the form field of [formfield] validates
    against and the ones its default widget lists. *)
Theorem constructed_field_form_uses_definitions
        (kwargs : FieldKwargs) (form_kwargs : FormKwargs)
        (self : BaseConditionField) (attrs : FieldAttrs) :
  conditions_field_init resolve_object_path settings message_null
                        message_invalid super_get_default kwargs
    = Ok (self, attrs) ->
  fk_widget form_kwargs = None ->
  let definitions := kwarg_or (kw_definitions kwargs) [] in
  let built := base_formfield self form_kwargs in
  form_condition_definitions (form built) = definitions /\
  exists w, form_widget built = ConditionsWidgetArg w /\
            reference_groups (widget_condition_definitions (widget w))
              = reference_groups definitions.
Proof.
  intros Hinit Hwidget definitions built.
  unfold conditions_field_init in Hinit.
  destruct (text_json_field_init _ _ _ _ _ kwargs) as [a |];
    [| discriminate Hinit].
  cbn [rbind] in Hinit. injection Hinit as <- <-.
  subst built. unfold base_formfield, conditions_form_field_init.
  cbn. rewrite Hwidget. split; [reflexivity |].
  eexists. split; reflexivity.
Qed.

End Constructed_field_properties.

(** A field built on the example registry, and one built on none. *)
Lemma constructed_field_form_uses_definitions_witness :
  form_condition_definitions
    (form (base_formfield
             {| field_condition_definitions := example_definitions |}
             {| fk_condition_definitions := None; fk_widget := None |}))
    = example_definitions.
Proof.
  apply (@constructed_field_form_uses_definitions compact_pylib compact_pytext
           (fun path => path) no_settings "This field cannot be null."
           "'%s' is not a valid JSON string." (Ok VNone)
           {| kw_null := None; kw_blank := None; kw_default := None;
              kw_indent := None; kw_encoder_class := None;
              kw_decoder_kwargs := None;
              kw_definitions := Some example_definitions |}
           {| fk_condition_definitions := None; fk_widget := None |}
           {| field_condition_definitions := example_definitions |}
           (example_init_attrs no_kwargs));
    reflexivity.
Defined.
